(** * Events calendar: the date-range parser and the sheet pipeline

    A shallow embedding of [src/eventscalendar.py]: [parse_dates],
    [process_dates] and [main].

    Text is modelled over the first 256 code points, where the character
    classes of Python's [str] and [re] are given exactly.  The two external
    libraries the script calls, the natural-language date parser and the
    spreadsheet reader, are parameters of the development, and so is what
    differs between versions of pandas in the steps on a sheet. *)

From Stdlib Require Import ZArith Ascii String List Bool Lia DecimalString.
From stdpp Require Import base option list strings gmap.

Local Open Scope Z_scope.

(** ** Characters *)

Module Char.

Definition code (c : ascii) : N := N_of_ascii c.

Definition between (lo hi : N) (c : ascii) : bool :=
  ((lo <=? code c) && (code c <=? hi))%N.

(** [str.isspace], also the class [\s] of a [str] pattern. *)
Definition isspace (c : ascii) : bool :=
  between 9 13 c || between 28 32 c || (code c =? 133)%N || (code c =? 160)%N.

(** The class [\d] of a [str] pattern: the decimal digits. *)
Definition isdigit (c : ascii) : bool := between 48 57 c.

(** The class [\w] of a [str] pattern: alphanumerics and the underscore. *)
Definition isword (c : ascii) : bool :=
  between 48 57 c || between 65 90 c || between 97 122 c || (code c =? 95)%N
  || (code c =? 170)%N || (code c =? 178)%N || (code c =? 179)%N
  || (code c =? 181)%N || (code c =? 185)%N || (code c =? 186)%N
  || between 188 190 c || between 192 214 c || between 216 246 c
  || between 248 255 c.

(** Case folding of the letters A to Z; the month patterns hold no other
    letter, so this decides a match under [re.IGNORECASE]. *)
Definition lower (c : ascii) : ascii :=
  if between 65 90 c then ascii_of_N (code c + 32) else c.

Definition eq_ci (a b : ascii) : bool := Ascii.eqb (lower a) (lower b).

End Char.

(** ** Strings and the regular expressions of the script *)

Module Str.

Local Open Scope string_scope.

Fixpoint drop (n : nat) (s : string) : string :=
  match n, s with
  | O, _ => s
  | S _, EmptyString => EmptyString
  | S k, String _ r => drop k r
  end.

Fixpoint take (n : nat) (s : string) : string :=
  match n, s with
  | O, _ => EmptyString
  | S _, EmptyString => EmptyString
  | S k, String c r => String c (take k r)
  end.

Fixpoint lstrip (s : string) : string :=
  match s with
  | String c r => if Char.isspace c then lstrip r else s
  | EmptyString => EmptyString
  end.

Fixpoint rstrip (s : string) : string :=
  match s with
  | String c r =>
      match rstrip r with
      | EmptyString => if Char.isspace c then EmptyString else String c EmptyString
      | t => String c t
      end
  | EmptyString => EmptyString
  end.

(** [s.strip()] *)
Definition strip (s : string) : string := rstrip (lstrip s).

(** [re.sub(r"\s+", " ", s)]: every maximal run of whitespace becomes one
    space.  [in_run] tells that the previous character was whitespace. *)
Fixpoint collapse_from (in_run : bool) (s : string) : string :=
  match s with
  | String c r =>
      if Char.isspace c
      then (if in_run then collapse_from true r else String " " (collapse_from true r))
      else String c (collapse_from false r)
  | EmptyString => EmptyString
  end.

Definition collapse_spaces (s : string) : string := collapse_from false s.

(** ["-" in s] *)
Fixpoint has_hyphen (s : string) : bool :=
  match s with
  | String c r => Ascii.eqb c "-" || has_hyphen r
  | EmptyString => false
  end.

Fixpoint count_spaces (s : string) : nat :=
  match s with
  | String c r => if Char.isspace c then S (count_spaces r) else O
  | EmptyString => O
  end.

(** Length of the match of [\s*-\s*] at the head of [s], if there is one. *)
Definition separator_at (s : string) : option nat :=
  let k := count_spaces s in
  match drop k s with
  | String c r => if Ascii.eqb c "-" then Some (k + 1 + count_spaces r)%nat else None
  | EmptyString => None
  end.

(** [re.split(r"\s*-\s*", s)].  [skip] counts the characters of the current
    separator still to pass over, [piece] is the text since the last
    separator. *)
Fixpoint split_from (skip : nat) (piece s : string) : list string :=
  match s with
  | EmptyString => [piece]
  | String c r =>
      match skip with
      | S k => split_from k piece r
      | O =>
          match separator_at s with
          | Some n => piece :: split_from (n - 1) EmptyString r
          | None => split_from O (piece ++ String c EmptyString) r
          end
      end
  end.

Definition split_hyphen (s : string) : list string := split_from O EmptyString s.

Definition nonempty (s : string) : bool :=
  match s with EmptyString => false | _ => true end.

(** [[part.strip() for part in parts if part.strip()]] *)
Definition clean_parts (parts : list string) : list string :=
  List.map strip (List.filter (fun p => nonempty (strip p)) parts).

(** [p] is a prefix of [s], letters compared without case. *)
Fixpoint prefix_ci (p s : string) : bool :=
  match p, s with
  | EmptyString, _ => true
  | String a p', String b s' => Char.eq_ci a b && prefix_ci p' s'
  | String _ _, EmptyString => false
  end.

(** The alternatives of [months_regex], in order: a three-letter stem and
    its optional continuation. *)
Definition months_table : list (string * string) :=
  [ ("Jan", "uary"); ("Feb", "ruary"); ("Mar", "ch"); ("Apr", "il");
    ("May", ""); ("Jun", "e"); ("Jul", "y"); ("Aug", "ust");
    ("Sep", "tember"); ("Oct", "ober"); ("Nov", "ember"); ("Dec", "ember") ].

(** Match of one alternative [stem(?:rest)?] at the head of [s]; the
    optional group is greedy. *)
Definition alternative_at (alt : string * string) (s : string) : option string :=
  let (stem, rest) := alt in
  if prefix_ci stem s
  then
    let n := String.length stem in
    if prefix_ci rest (drop n s)
    then Some (take (n + String.length rest) s)
    else Some (take n s)
  else None.

Fixpoint first_alternative (alts : list (string * string)) (s : string)
  : option string :=
  match alts with
  | alt :: more =>
      match alternative_at alt s with
      | Some m => Some m
      | None => first_alternative more s
      end
  | [] => None
  end.

(** [re.search(months_regex, s, re.IGNORECASE)]: the text of the leftmost
    match ([group(0)]), or [None]. *)
Fixpoint search_month (s : string) : option string :=
  match first_alternative months_table s with
  | Some m => Some m
  | None =>
      match s with
      | String _ r => search_month r
      | EmptyString => None
      end
  end.

(** Match of [20\d{2}\b] at the head of [s]. *)
Definition year_at (s : string) : bool :=
  match s with
  | String c1 (String c2 (String d1 (String d2 r))) =>
      Ascii.eqb c1 "2" && Ascii.eqb c2 "0" && Char.isdigit d1 && Char.isdigit d2
      && match r with
         | String c _ => negb (Char.isword c)
         | EmptyString => true
         end
  | _ => false
  end.

(** [re.search(r"\b(20\d{2})\b", s)] as a truth value.  [after_word] tells
    that the previous character is a word character, in which case no word
    boundary stands before a digit. *)
Fixpoint year_from (after_word : bool) (s : string) : bool :=
  match s with
  | String c r => (negb after_word && year_at s) || year_from (Char.isword c) r
  | EmptyString => false
  end.

Definition has_year (s : string) : bool := year_from false s.

(** The letters A to Z and a to z, and the texts made of them. *)
Definition is_letter (c : ascii) : bool :=
  Char.between 65 90 c || Char.between 97 122 c.

Fixpoint letters (s : string) : bool :=
  match s with
  | String c r => is_letter c && letters r
  | EmptyString => true
  end.

End Str.

(** ** Calendar values *)

Module Datetime.

(** A [datetime.datetime] without time zone, as the date parser returns it
    for text that names no zone. *)
Record t : Type := make
  { year : Z; month : Z; day : Z;
    hour : Z; minute : Z; second : Z; microsecond : Z }.

Definition of_date (y m d : Z) : t := make y m d 0 0 0 0.

Definition is_leap (y : Z) : bool :=
  (y mod 4 =? 0) && (negb (y mod 100 =? 0) || (y mod 400 =? 0)).

Definition days_in_month (y m : Z) : Z :=
  if (m =? 2) && is_leap y then 29
  else List.nth (Z.to_nat m) [0; 31; 28; 31; 30; 31; 30; 31; 31; 30; 31; 30; 31] 0.

(** The range check of the constructor on the date fields. *)
Definition check_date_fields (y m d : Z) : bool :=
  (1 <=? y) && (y <=? 9999) && (1 <=? m) && (m <=? 12)
  && (1 <=? d) && (d <=? days_in_month y m).

Definition fields (d : t) : list Z :=
  [year d; month d; day d; hour d; minute d; second d; microsecond d].

Fixpoint lex_compare (a b : list Z) : comparison :=
  match a, b with
  | x :: a', y :: b' =>
      match x ?= y with
      | Eq => lex_compare a' b'
      | c => c
      end
  | [], [] => Eq
  | [], _ :: _ => Lt
  | _ :: _, [] => Gt
  end.

Definition compare (a b : t) : comparison := lex_compare (fields a) (fields b).

(** [a < b] *)
Definition ltb (a b : t) : bool :=
  match compare a b with Lt => true | _ => false end.

(** [a <= b] *)
Definition leb (a b : t) : bool := negb (ltb b a).

Definition with_year (d : t) (y : Z) : t :=
  make y (month d) (day d) (hour d) (minute d) (second d) (microsecond d).

Definition digit (n : Z) : ascii := ascii_of_N (48 + Z.to_N (n mod 10)).

(** [n] written with exactly [width] decimal digits, zero padded. *)
Fixpoint zero_padded (width : nat) (n : Z) : string :=
  match width with
  | O => EmptyString
  | S w => (zero_padded w (n / 10) ++ String (digit n) EmptyString)%string
  end.

(** [d.strftime("%Y-%m-%d")], for a year of four digits. *)
Definition strftime_ymd (d : t) : string :=
  (zero_padded 4 (year d) ++ "-" ++ zero_padded 2 (month d) ++ "-"
   ++ zero_padded 2 (day d))%string.

(** The shape [YYYY-MM-DD]: ten characters, digits around two hyphens. *)
Definition is_ymd (s : string) : bool :=
  match s with
  | String y1 (String y2 (String y3 (String y4 (String h1 (String m1 (String m2
      (String h2 (String d1 (String d2 EmptyString))))))))) =>
      forallb Char.isdigit [y1; y2; y3; y4; m1; m2; d1; d2]
      && Ascii.eqb h1 "-" && Ascii.eqb h2 "-"
  | _ => false
  end.

End Datetime.

Abbreviation datetime := Datetime.t.

(** ** Exceptions and the monad of the script *)

(** The exceptions met in the script, all of them subclasses of
    [Exception]. *)
Inductive exn : Type :=
| ValueError
| OutOfBoundsDatetime
| FileNotFoundError
| AttributeError
| LibraryError (message : string).

Inductive result (A : Type) : Type :=
| Returns (a : A)
| Raises (e : exn).

Arguments Returns {A} a.
Arguments Raises {A} e.

(** A computation yields the arguments it handed to the date parser, in
    call order, and then returns or raises. *)
Definition M (A : Type) : Type := (list string * result A)%type.

Definition ret {A} (a : A) : M A := ([], Returns a).

Definition raise {A} (e : exn) : M A := ([], Raises e).

Definition bind {A B} (m : M A) (k : A -> M B) : M B :=
  match m with
  | (log, Returns a) => let (log', r) := k a in (log ++ log', r)
  | (log, Raises e) => (log, Raises e)
  end.

(** [try: m except Exception as e: handler e] *)
Definition try_except {A} (m : M A) (handler : exn -> M A) : M A :=
  match m with
  | (log, Returns a) => (log, Returns a)
  | (log, Raises e) => let (log', r) := handler e in (log ++ log', r)
  end.

Definition calls {A} (m : M A) : list string := fst m.

Definition outcome {A} (m : M A) : result A := snd m.

#[global] Instance M_ret : MRet M := @ret.

#[global] Instance M_bind : MBind M := fun A B k m => bind m k.

Fixpoint mapM {A B} (f : A -> M B) (l : list A) : M (list B) :=
  match l with
  | [] => ret []
  | a :: l' => b ← f a; bs ← mapM f l'; ret (b :: bs)
  end.

(** ** Frames *)

(** A cell of a sheet.  A missing value (NaN, None, NaT) is the absence of
    the column's key in the row. *)
Inductive cell : Type :=
| CText (s : string)
| CInt (z : Z)
| CDatetime (d : datetime).

(** A [DataFrame]: the column labels in order, and the rows in order.  The
    frame holds labels and values; where a step depends on the dtype of a
    column, the step takes what it needs of it as an argument. *)
Record frame : Type := Frame
  { columns : list string;
    rows : list (gmap string cell) }.

(** [pd.DataFrame()] *)
Definition empty_frame : frame := Frame [] [].

(** [name in df.columns] *)
Definition has_column (name : string) (df : frame) : bool :=
  bool_decide (name ∈ columns df).

Definition add_column (name : string) (cols : list string) : list string :=
  if bool_decide (name ∈ cols) then cols else cols ++ [name].

(** Store a value, or the missing value, under a column of a row. *)
Definition set_cell (name : string) (v : option cell) (row : gmap string cell)
  : gmap string cell :=
  match v with
  | Some c => <[name := c]> row
  | None => delete name row
  end.

(** The values of a column, row after row. *)
Definition column_values (name : string) (df : frame) : list (option cell) :=
  (fun row => row !! name) <$> rows df.

(** [df[name] = df[name].astype(str)].  [text] gives the string that a value
    becomes, or [None] where the value stays missing; it is given the whole
    column, whose dtype decides how a value is written. *)
Definition astype_str (text : list (option cell) -> option cell -> option string)
    (name : string) (df : frame) : frame :=
  Frame (columns df)
        ((fun row =>
            set_cell name (CText <$> text (column_values name df) (row !! name)) row)
           <$> rows df).

(** [df[[c1, c2]] = values], one pair of values per row.  With no row the
    right-hand side is an empty [Series] and not a frame of two columns, and
    the assignment raises. *)
Definition assign_pair (c1 c2 : string)
    (values : list (option datetime * option datetime)) (df : frame) : M frame :=
  match values with
  | [] => raise ValueError
  | _ :: _ =>
      ret (Frame (add_column c2 (add_column c1 (columns df)))
                 (zip_with (fun row v =>
                              set_cell c2 (CDatetime <$> v.2)
                                (set_cell c1 (CDatetime <$> v.1) row))
                           (rows df) values))
  end.

(** [df.dropna(subset=[c1, c2])] *)
Definition dropna (c1 c2 : string) (df : frame) : frame :=
  Frame (columns df)
        (List.filter (fun row => bool_decide (is_Some (row !! c1))
                                 && bool_decide (is_Some (row !! c2)))
                     (rows df)).

(** [df[name] = df[name].dt.strftime("%Y-%m-%d")].  [datetimelike] tells
    whether the column has a datetime dtype; on any other column the [.dt]
    accessor raises. *)
Definition strftime_column (name : string) (datetimelike : bool) (df : frame)
  : M frame :=
  if datetimelike
  then
    ret (Frame (columns df)
               ((fun row =>
                   set_cell name
                     (match row !! name with
                      | Some (CDatetime d) => Some (CText (Datetime.strftime_ymd d))
                      | _ => None
                      end) row) <$> rows df))
  else raise AttributeError.

(** [pd.concat(frames, axis=0, ignore_index=True)]: the union of the
    columns in order of first appearance, and all rows in order. *)
Definition concat_frames (frames : list frame) : frame :=
  Frame (foldl (fun cols df => foldl (fun acc c => add_column c acc) cols (columns df))
               [] frames)
        (mjoin (rows <$> frames)).

(** ** The external libraries *)

(** What the script takes from outside: the natural-language date parser,
    the range of instants a [Timestamp] can hold, and the spreadsheet
    reader. *)
Class Libraries : Type :=
  { dateparser_parse : string -> result (option datetime);
    timestamp_in_bounds : datetime -> bool;
    read_excel : string -> string -> result frame }.

(** What the steps on a sheet take from pandas besides the reader, and what
    differs between its versions:
    - [astype_str_value column v], the string that [astype(str)] makes of the
      value [v] of [column], or [None] where [v] stays a missing value;
    - [infers_datetime values], whether a column assigned [values] comes out
      with a datetime dtype, on which the [.dt] accessor works. *)
Class Pandas : Type :=
  { astype_str_value : list (option cell) -> option cell -> option string;
    infers_datetime : list (option datetime) -> bool }.

(** ** The script *)

Section Script.

Context {libs : Libraries} {pandas : Pandas}.

Local Open Scope string_scope.

(** A call of [dateparser.parse], recorded. *)
Definition parse_call (s : string) : M (option datetime) :=
  ([s], dateparser_parse s).

(** [d.replace(year=y)]: the constructor checks the new date. *)
Definition replace_year (d : datetime) (y : Z) : M datetime :=
  if Datetime.check_date_fields y (Datetime.month d) (Datetime.day d)
  then ret (Datetime.with_year d y)
  else raise ValueError.

(** [pd.Timestamp(d)]: the same instant, when it is in bounds. *)
Definition pd_Timestamp (d : datetime) : M datetime :=
  if timestamp_in_bounds d then ret d else raise OutOfBoundsDatetime.

(** [if x: x = pd.Timestamp(x)] *)
Definition to_timestamp (x : option datetime) : M (option datetime) :=
  match x with
  | Some d => t ← pd_Timestamp d; ret (Some t)
  | None => ret None
  end.

(** Lines 45 to 54: the month of the second part is copied onto a first part
    that has none. *)
Definition copy_month (start_str end_str : string) : string :=
  match Str.search_month start_str with
  | Some _ => start_str
  | None =>
      match Str.search_month end_str with
      | Some month_match => start_str ++ " " ++ month_match
      | None => start_str
      end
  end.

(** Lines 57 to 60 and 81 to 82: the year is appended when the text has
    none. *)
Definition append_year (s current_year : string) : string :=
  if Str.has_year s then s else s ++ " " ++ current_year.

(** Lines 66 to 74: a failure on either side fails the range, and an end
    date before the start date moves one year on. *)
Definition check_range (start_date end_date : option datetime)
  : M (option datetime * option datetime) :=
  match start_date, end_date with
  | Some sd, Some ed =>
      if Datetime.ltb ed sd
      then
        ed' ← replace_year ed (Datetime.year ed + 1);
        ret (Some sd, Some ed')
      else ret (Some sd, Some ed)
  | _, _ => ret (None, None)
  end.

(** Lines 35 to 86: the branches of the [try] block, on the normalised
    text. *)
Definition parse_body (date_str current_year : string)
  : M (option datetime * option datetime) :=
  if Str.has_hyphen date_str then
    let parts := Str.split_hyphen date_str in
    let parts := Str.clean_parts parts in
    match parts with
    | [start_str; end_str] =>
        let start_str := copy_month start_str end_str in
        let start_str := append_year start_str current_year in
        let end_str := append_year end_str current_year in
        start_date ← parse_call start_str;
        end_date ← parse_call end_str;
        check_range start_date end_date
    | _ =>
        start_date ← parse_call date_str;
        ret (start_date, start_date)
    end
  else
    let date_str := append_year date_str current_year in
    start_date ← parse_call date_str;
    ret (start_date, start_date).

(** The whole [try] block: the branches, then the conversion to
    timestamps. *)
Definition parse_attempt (date_str current_year : string)
  : M (option datetime * option datetime) :=
  '(start_date, end_date) ← parse_body date_str current_year;
  start_date ← to_timestamp start_date;
  end_date ← to_timestamp end_date;
  ret (start_date, end_date).

(** Line 27: [re.sub(r"\s+", " ", date_str.strip())] *)
Definition normalise (date_str : string) : string :=
  Str.collapse_spaces (Str.strip date_str).

(** Lines 37 to 40: the non-empty parts of the normalised text around its
    hyphens. *)
Definition parts_of (date_str : string) : list string :=
  Str.clean_parts (Str.split_hyphen (normalise date_str)).

Definition parse_dates (date_str current_year : string)
  : M (option datetime * option datetime) :=
  let date_str := normalise date_str in
  try_except (parse_attempt date_str current_year)
             (fun _ => ret (None, None)).

(** Line 137: [parse_dates(x, sheet_name)] on a value of the [Date] column.
    A value that is not a string has no [strip]: line 27, which stands before
    the [try], raises. *)
Definition apply_parse_dates (x : option cell) (sheet_name : string)
  : M (option datetime * option datetime) :=
  match x with
  | Some (CText date_str) => parse_dates date_str sheet_name
  | _ => raise AttributeError
  end.

(** The dtype of the two date columns is the one inferred from the values
    assigned on line 136; [dropna] keeps it. *)
Definition process_dates (filepath sheet_name : string) : M frame :=
  match read_excel filepath sheet_name with
  | Raises _ => ret empty_frame
  | Returns df =>
      if negb (has_column "Date" df) then ret empty_frame
      else
        let df := astype_str astype_str_value "Date" df in
        parsed ← mapM (fun row => apply_parse_dates (row !! "Date") sheet_name)
                      (rows df);
        df ← assign_pair "Start Date" "End Date" parsed df;
        let df := dropna "Start Date" "End Date" df in
        df ← strftime_column "Start Date" (infers_datetime parsed.*1) df;
        df ← strftime_column "End Date" (infers_datetime parsed.*2) df;
        ret df
  end.

(** [main], up to the frame it hands to [to_csv]. *)
Definition main (filepath : string) : M frame :=
  df_2022 ← process_dates filepath "2022";
  df_2023 ← process_dates filepath "2023";
  df_2024 ← process_dates filepath "2024";
  ret (concat_frames [df_2022; df_2023; df_2024]).

End Script.

(** ** A reference instance of the libraries *)

(** A small date parser that reads two layouts, [D Month YYYY] and
    [YYYY-MM-DD], with the date at midnight as the date parser gives it, and
    returns [None] on any other text; the timestamp bounds of a nanosecond
    clock on 64 bits; and a workbook given as a list of named sheets.  It
    instantiates the parameters of the script on concrete inputs. *)

Module Reference.

Local Open Scope string_scope.

Fixpoint number_from (acc : Z) (s : string) : option Z :=
  match s with
  | String c r =>
      if Char.isdigit c
      then number_from (10 * acc + Z.of_N (Char.code c - 48))%Z r
      else None
  | EmptyString => Some acc
  end.

(** A run of exactly [width] decimal digits. *)
Definition number (width : nat) (s : string) : option Z :=
  if Nat.eqb (String.length s) width then number_from 0%Z s else None.

(** A run of one or two decimal digits. *)
Definition short_number (s : string) : option Z :=
  match number 1 s with
  | Some n => Some n
  | None => number 2 s
  end.

Fixpoint split_on (sep : ascii) (piece s : string) : list string :=
  match s with
  | String c r =>
      if Ascii.eqb c sep then piece :: split_on sep EmptyString r
      else split_on sep (piece ++ String c EmptyString) r
  | EmptyString => [piece]
  end.

Fixpoint month_index (alts : list (string * string)) (n : Z) (s : string)
  : option Z :=
  match alts with
  | alt :: more =>
      match Str.alternative_at alt s with
      | Some m => if String.eqb m s then Some n else None
      | None => month_index more (n + 1)%Z s
      end
  | [] => None
  end.

Definition month_number (s : string) : option Z :=
  month_index Str.months_table 1%Z s.

Definition date (y m d : option Z) : option datetime :=
  match y, m, d with
  | Some y, Some m, Some d =>
      if Datetime.check_date_fields y m d && (1000 <=? y)%Z
      then Some (Datetime.of_date y m d)
      else None
  | _, _, _ => None
  end.

Definition parse (s : string) : option datetime :=
  match split_on " " EmptyString s with
  | [d; m; y] => date (number 4 y) (month_number m) (short_number d)
  | [iso] =>
      match split_on "-" EmptyString iso with
      | [y; m; d] => date (number 4 y) (number 2 m) (number 2 d)
      | _ => None
      end
  | _ => None
  end.

Definition timestamp_min : datetime := Datetime.make 1677 9 21 0 12 43 145225%Z.

Definition timestamp_max : datetime := Datetime.make 2262 4 11 23 47 16 854775%Z.

Definition in_bounds (d : datetime) : bool :=
  Datetime.leb timestamp_min d && Datetime.leb d timestamp_max.

Fixpoint sheet (book : list (string * frame)) (name : string) : result frame :=
  match book with
  | (n, df) :: more => if String.eqb n name then Returns df else sheet more name
  | [] => Raises ValueError
  end.

Definition libraries (book : list (string * frame)) : Libraries :=
  {| dateparser_parse := fun s => Returns (parse s);
     timestamp_in_bounds := in_bounds;
     read_excel := fun _ name => sheet book name |}.

(** A workbook of three sheets; the sheet of 2023 has no [Date] column. *)
Definition calendar_2022 : frame :=
  Frame ["Event"; "Date"]
        [ {[ "Event" := CText "Expo"; "Date" := CText "30 Dec - 2 Jan" ]};
          {[ "Event" := CText "Open day"; "Date" := CText "to be confirmed" ]};
          {[ "Event" := CText "Fair"; "Date" := CText "12 - 15 March" ]} ].

Definition calendar_2023 : frame :=
  Frame ["Event"; "When"]
        [ {[ "Event" := CText "Summit"; "When" := CText "5 May" ]} ].

Definition calendar_2024 : frame :=
  Frame ["Event"; "Date"]
        [ {[ "Event" := CText "Workshop"; "Date" := CText "5 May" ]} ].

Definition workbook : list (string * frame) :=
  [ ("2022", calendar_2022); ("2023", calendar_2023); ("2024", calendar_2024) ].

Definition workbook_libraries : Libraries := libraries workbook.

(** The text of a date: the day alone in a column of dates that are all at
    midnight, the day and the time in any other column. *)
Definition midnight (c : option cell) : bool :=
  match c with
  | Some (CDatetime d) =>
      (Datetime.hour d =? 0)%Z && (Datetime.minute d =? 0)%Z
      && (Datetime.second d =? 0)%Z && (Datetime.microsecond d =? 0)%Z
  | Some _ => false
  | None => true
  end.

Definition datetime_text (column : list (option cell)) (d : datetime) : string :=
  if forallb midnight column then Datetime.strftime_ymd d
  else
    Datetime.strftime_ymd d ++ " "
    ++ Datetime.zero_padded 2 (Datetime.hour d) ++ ":"
    ++ Datetime.zero_padded 2 (Datetime.minute d) ++ ":"
    ++ Datetime.zero_padded 2 (Datetime.second d)
    ++ (if (Datetime.microsecond d =? 0)%Z then ""
        else "." ++ Datetime.zero_padded 6 (Datetime.microsecond d)).

(** A stand-in for what the script takes from pandas, after pandas 3: a
    string is its own text, a whole number its decimal writing, a missing
    value stays missing, and a column of dates and missing values is a
    datetime column as soon as it holds a date. *)
Definition text_of_value (column : list (option cell)) (c : option cell)
  : option string :=
  match c with
  | Some (CText s) => Some s
  | Some (CInt z) => Some (NilZero.string_of_int (Z.to_int z))
  | Some (CDatetime d) => Some (datetime_text column d)
  | None => None
  end.

Definition holds_a_date (values : list (option datetime)) : bool :=
  existsb (fun v => match v with Some _ => true | None => false end) values.

Definition pandas : Pandas :=
  {| astype_str_value := text_of_value;
     infers_datetime := holds_a_date |}.

(** A stand-in for pandas 2: a missing value is written [NaT] in a column of
    dates and [nan] in any other, and a column of dates and missing values
    is a datetime column only when it holds no missing value. *)
Definition date_column (column : list (option cell)) : bool :=
  existsb (fun c => match c with Some (CDatetime _) => true | _ => false end)
          column
  && forallb (fun c => match c with Some (CDatetime _) | None => true
                               | Some _ => false end)
             column.

Definition text_of_value_2 (column : list (option cell)) (c : option cell)
  : option string :=
  match c with
  | Some _ => text_of_value column c
  | None => Some (if date_column column then "NaT" else "nan")
  end.

Definition holds_dates_only (values : list (option datetime)) : bool :=
  forallb (fun v => match v with Some _ => true | None => false end) values.

Definition pandas_2 : Pandas :=
  {| astype_str_value := text_of_value_2;
     infers_datetime := holds_dates_only |}.

End Reference.


(** ** What a sheet should come out as *)

Section Expected.

Context {libs : Libraries} {pandas : Pandas}.

(** The pair that [parse_dates] returns, the failure pair standing for an
    exception it would let through. *)
Definition parsed_range (date_str current_year : string)
  : option datetime * option datetime :=
  match outcome (parse_dates date_str current_year) with
  | Returns p => p
  | Raises _ => (None, None)
  end.

(** The text under [Date] of a row of the sheet after line 133, where it is
    a string. *)
Definition date_text (df : frame) (row : gmap string cell) : option string :=
  astype_str_value (column_values "Date"%string df) (row !! "Date"%string).

(** The strings at the head of a list of texts, up to the first value that
    is not one. *)
Fixpoint leading_strings (texts : list (option string)) : list string :=
  match texts with
  | Some text :: more => text :: leading_strings more
  | _ => []
  end.

(** The row of the output for a row of the sheet, if it has one: the date
    text as a string, and the two dates written out. *)
Definition expected_row (sheet_name : string) (df : frame)
    (row : gmap string cell) : option (gmap string cell) :=
  match date_text df row with
  | Some text =>
      match parsed_range text sheet_name with
      | (Some sd, Some ed) =>
          Some (<["End Date"%string := CText (Datetime.strftime_ymd ed)]>
                  (<["Start Date"%string := CText (Datetime.strftime_ymd sd)]>
                     (<["Date"%string := CText text]> row)))
      | _ => None
      end
  | None => None
  end.

End Expected.

(** ** Shapes of text *)

(** Predicates and measures in which the properties of the text steps are
    stated. *)

Module Shape.

Local Open Scope string_scope.

Fixpoint count_hyphens (s : string) : nat :=
  match s with
  | String c r => if Ascii.eqb c "-" then S (count_hyphens r) else count_hyphens r
  | EmptyString => O
  end.

(** The first character is not whitespace. *)
Definition starts_nonspace (s : string) : bool :=
  match s with
  | String c _ => negb (Char.isspace c)
  | EmptyString => false
  end.

(** The last character is not whitespace. *)
Fixpoint ends_nonspace (s : string) : bool :=
  match s with
  | String c r =>
      match r with
      | EmptyString => negb (Char.isspace c)
      | String _ _ => ends_nonspace r
      end
  | EmptyString => false
  end.

(** Every whitespace character is a space that stands between two other
    characters and not next to another space.  [after_space] tells that a
    space may not come next, nor may the text end. *)
Fixpoint tidy_from (after_space : bool) (s : string) : bool :=
  match s with
  | String c r =>
      if Char.isspace c
      then Ascii.eqb c " " && negb after_space && tidy_from true r
      else tidy_from false r
  | EmptyString => negb after_space
  end.

Definition tidy (s : string) : bool :=
  match s with
  | EmptyString => true
  | String _ _ => tidy_from true s
  end.

Fixpoint lowercase (s : string) : string :=
  match s with
  | String c r => String (Char.lower c) (lowercase r)
  | EmptyString => EmptyString
  end.

(** The month names and abbreviations that [months_regex] spells. *)
Definition month_names : list string :=
  [ "jan"; "january"; "feb"; "february"; "mar"; "march"; "apr"; "april";
    "may"; "jun"; "june"; "jul"; "july"; "aug"; "august"; "sep"; "september";
    "oct"; "october"; "nov"; "november"; "dec"; "december" ].

End Shape.

(** ** The other scripts *)

(** [events.py]: the category and product of a business unit. *)

Module Events.

Local Open Scope string_scope.

Definition map_business_unit_to_category (business_unit : string) : string :=
  if bool_decide
       (business_unit
        ∈ ["Consumer"; "Retail"; "Retail (Consumer)"; "Consumer & Retail"])
  then "Fibre to the Home"
  else if String.eqb business_unit "Retail (SME)"
  then "Fibre to the Office"
  else "Enterprise, Wholesale, or Public Sector".

Definition map_category_to_product (category : string) : string :=
  if String.eqb category "Fibre to the Home" then "All Home Fibre Speeds"
  else if String.eqb category "Fibre to the Office"
  then "All Business Fibre Speeds"
  else "Enterprise-grade products".

(** The two functions on the value of a cell: a value that is not a string
    equals none of the names and takes the last branch. *)
Definition category_of_cell (c : option cell) : string :=
  match c with
  | Some (CText business_unit) => map_business_unit_to_category business_unit
  | _ => "Enterprise, Wholesale, or Public Sector"
  end.

Definition product_of_cell (c : option cell) : string :=
  match c with
  | Some (CText category) => map_category_to_product category
  | _ => "Enterprise-grade products"
  end.

(** [df[name] = value] *)
Definition assign_constant (name value : string) (df : frame) : frame :=
  Frame (add_column name (columns df))
        ((fun row => <[name := CText value]> row) <$> rows df).

(** [df[target] = df[source].apply(f)] *)
Definition assign_applied (target source : string)
    (f : option cell -> string) (df : frame) : frame :=
  Frame (add_column target (columns df))
        ((fun row => <[target := CText (f (row !! source))]> row) <$> rows df).

(** The exceptions that [process_time_data] raises. *)
Inductive error : Type :=
| FileNotFound
| KeyError
| OtherException.

(** [process_time_data], with [pd.read_csv] as a parameter.  The steps of
    the second [try] block raise nothing on a frame. *)
Definition process_time_data (read_csv : string -> result frame)
    (filepath : string) : error + frame :=
  match read_csv filepath with
  | Raises FileNotFoundError => inl FileNotFound
  | Raises _ => inl OtherException
  | Returns df =>
      if negb (has_column "Business Unit" df) then inl KeyError
      else
        let df := assign_constant "brand" "Time" df in
        let df := assign_constant "company" "Time" df in
        let df := assign_applied "category" "Business Unit" category_of_cell df in
        let df := assign_applied "product" "category" product_of_cell df in
        inr df
  end.

End Events.

(** [earnedmedia.py]: the sheets of a workbook, one after the other. *)

Module EarnedMedia.

Definition read_data_from_earned_media_sheets {libs : Libraries}
    (filepath : string) (sheet_names : list string) : frame :=
  foldl (fun df_total sheet =>
           match read_excel filepath sheet with
           | Returns df => concat_frames [df_total; df]
           | Raises _ => df_total
           end)
        empty_frame sheet_names.

End EarnedMedia.

(** ** Sample inputs *)

Module Samples.

Local Open Scope string_scope.

(** A workbook without the sheet of 2023: the reader raises on it. *)
Definition two_sheets : Libraries :=
  Reference.libraries
    [ ("2022", Reference.calendar_2022); ("2024", Reference.calendar_2024) ].

(** A workbook whose three sheets have a [Date] column. *)
Definition three_sheets : Libraries :=
  Reference.libraries
    [ ("2022", Reference.calendar_2022);
      ("2023", Frame ["Date"] [ {[ "Date" := CText "1 - 3 June" ]} ]);
      ("2024", Reference.calendar_2024) ].

(** An events file of three rows, and a reader that knows this file only. *)
Definition events_file : frame :=
  Frame ["Event"; "Business Unit"]
        [ {[ "Event" := CText "Expo"; "Business Unit" := CText "Retail" ]};
          {[ "Event" := CText "Fair"; "Business Unit" := CText "Retail (SME)" ]};
          {[ "Event" := CText "Summit"; "Business Unit" := CInt 7 ]} ].

Definition read_csv (filepath : string) : result frame :=
  if String.eqb filepath "events.csv" then Returns events_file
  else Raises FileNotFoundError.

(** A sheet whose rows all hold a date. *)
Definition dated_2022 : frame :=
  Frame ["Event"; "Date"]
        [ {[ "Event" := CText "Expo"; "Date" := CText "30 Dec - 2 Jan" ]};
          {[ "Event" := CText "Fair"; "Date" := CText "12 - 15 March" ]} ].

(** A workbook whose rows all hold a date; the sheet of 2023 has no [Date]
    column. *)
Definition all_dated : Libraries :=
  Reference.libraries
    [ ("2022", dated_2022); ("2023", Reference.calendar_2023);
      ("2024", Reference.calendar_2024) ].

(** A sheet of one row, with a text that is no date, and a workbook that
    has it as its sheet of 2023. *)
Definition no_date_sheet : frame :=
  Frame ["Event"; "Date"]
        [ {[ "Event" := CText "Launch"; "Date" := CText "not a date" ]} ].

Definition one_bad_sheet : Libraries :=
  Reference.libraries
    [ ("2022", dated_2022); ("2023", no_date_sheet);
      ("2024", Reference.calendar_2024) ].

(** A workbook whose sheet of 2022 has a [Date] column and no row. *)
Definition header_only : Libraries :=
  Reference.libraries
    [ ("2022", Frame ["Event"; "Date"] []); ("2024", Reference.calendar_2024) ].



(** A sheet with a missing value under [Date] in its second row. *)
Definition gap_sheet : frame :=
  Frame ["Event"; "Date"]
        [ {[ "Event" := CText "Expo"; "Date" := CText "5 May" ]};
          {[ "Event" := CText "Fair" ]};
          {[ "Event" := CText "Summit"; "Date" := CText "6 May" ]} ].

Definition with_gap : Libraries :=
  Reference.libraries [ ("2024", gap_sheet) ].

End Samples.

(** ** Proof automation *)

(** [run] pushes [calls] and [outcome] through the monad with the equations
    collected in the database of the same name. *)
Create Rewrite HintDb run.

Ltac run := autorewrite with run; cbn [calls outcome fst snd raise ret app].

Ltac run_cases := repeat (first [progress run | case_match]).

(** * Properties *)

(** ** The text functions on sample inputs *)

Example strip_collapse :
  Str.collapse_spaces (Str.strip "  12  -   15 March ") = "12 - 15 March"%string.
Proof. reflexivity. Qed.

Example split_range : Str.split_hyphen "12 - 15 March" = ["12"; "15 March"]%string.
Proof. reflexivity. Qed.

Example split_iso : Str.split_hyphen "2023-12-25" = ["2023"; "12"; "25"]%string.
Proof. reflexivity. Qed.

Example split_edges : Str.split_hyphen "-a -" = [""; "a"; ""]%string.
Proof. reflexivity. Qed.

Example search_month_long :
  Str.search_month "15 march 2023" = Some "march"%string.
Proof. reflexivity. Qed.

Example search_month_inside : Str.search_month "5 Sept" = Some "Sep"%string.
Proof. reflexivity. Qed.

Example has_year_yes : Str.has_year "5 May 2024" = true.
Proof. reflexivity. Qed.

Example has_year_other_century : Str.has_year "5 May 1999" = false.
Proof. reflexivity. Qed.

Example has_year_glued : Str.has_year "May2024" = false.
Proof. reflexivity. Qed.

(** ** The monad *)

Section MonadFacts.

Context {A B : Type}.

Lemma outcome_bind (m : M A) (k : A -> M B) :
  outcome (m ≫= k)
  = match outcome m with
    | Returns a => outcome (k a)
    | Raises e => Raises e
    end.
Proof.
  destruct m as [log [a | e]]; cbn; [destruct (k a) |]; reflexivity.
Qed.

Lemma calls_bind (m : M A) (k : A -> M B) :
  calls (m ≫= k)
  = calls m ++ match outcome m with
               | Returns a => calls (k a)
               | Raises _ => []
               end.
Proof.
  destruct m as [log [a | e]]; cbn; [destruct (k a) | rewrite app_nil_r];
    reflexivity.
Qed.

Lemma outcome_try_except (m : M A) (handler : exn -> M A) :
  outcome (try_except m handler)
  = match outcome m with
    | Returns a => Returns a
    | Raises e => outcome (handler e)
    end.
Proof.
  destruct m as [log [a | e]]; cbn; [| destruct (handler e)]; reflexivity.
Qed.

Lemma calls_try_except (m : M A) (handler : exn -> M A) :
  calls (try_except m handler)
  = calls m ++ match outcome m with
               | Returns _ => []
               | Raises e => calls (handler e)
               end.
Proof.
  destruct m as [log [a | e]]; cbn; [rewrite app_nil_r | destruct (handler e)];
    reflexivity.
Qed.

Lemma M_eq (m m' : M A) : calls m = calls m' -> outcome m = outcome m' -> m = m'.
Proof. destruct m, m'; cbn; congruence. Qed.

End MonadFacts.

Lemma outcome_ret {A} (a : A) : outcome (ret a) = Returns a.
Proof. reflexivity. Qed.

Lemma calls_ret {A} (a : A) : calls (ret a) = [].
Proof. reflexivity. Qed.

#[local] Hint Rewrite @outcome_bind @calls_bind @outcome_try_except
  @calls_try_except @outcome_ret @calls_ret : run.


(** ** The calendar order *)

Module DatetimeFacts.

Import Datetime.

Lemma lex_compare_refl (l : list Z) : lex_compare l l = Eq.
Proof. induction l as [| x l IH]; cbn; [| rewrite Z.compare_refl]; done. Qed.

Lemma ltb_irrefl (d : datetime) : ltb d d = false.
Proof. unfold ltb, compare. by rewrite lex_compare_refl. Qed.

Lemma leb_refl (d : datetime) : leb d d = true.
Proof. unfold leb. by rewrite ltb_irrefl. Qed.

(** A date in an earlier year is an earlier date. *)
Lemma ltb_year (a b : datetime) : (year a < year b)%Z -> ltb a b = true.
Proof.
  intros H. unfold ltb, compare, fields. cbn.
  by rewrite (proj2 (Z.compare_lt_iff _ _) H).
Qed.

Lemma ltb_asym (a b : datetime) : ltb a b = true -> ltb b a = false.
Proof.
  unfold ltb, compare. generalize (fields a) (fields b).
  induction l as [| x l IH]; intros [| y l']; cbn; try done.
  rewrite (Z.compare_antisym x y).
  destruct (x ?= y); cbn; try done. apply IH.
Qed.

(** Moving the end date one year on puts it after any start date of a year
    that is not later than its own. *)
Lemma leb_with_next_year (sd ed : datetime) :
  (year sd <= year ed)%Z -> leb sd (with_year ed (year ed + 1)) = true.
Proof.
  intros H. unfold leb. rewrite (ltb_asym sd); [done |].
  apply ltb_year. cbn. lia.
Qed.

End DatetimeFacts.

(** ** Splitting *)

Module StrFacts.

Import Str.

Local Open Scope string_scope.

Lemma append_cons (x : ascii) (a b : string) :
  String x a ++ b = String x (a ++ b).
Proof. reflexivity. Qed.

Lemma append_empty_l (a : string) : "" ++ a = a.
Proof. reflexivity. Qed.

Lemma append_assoc (a b c : string) : (a ++ b) ++ c = a ++ (b ++ c).
Proof.
  induction a as [| x a IH]; [done |]. by rewrite !append_cons, IH.
Qed.

Lemma append_empty_r (a : string) : a ++ "" = a.
Proof. induction a as [| x a IH]; [done |]. by rewrite append_cons, IH. Qed.

Lemma has_hyphen_drop (k : nat) (s : string) :
  has_hyphen s = false -> has_hyphen (drop k s) = false.
Proof.
  revert s. induction k as [| k IH]; intros [| c r]; cbn; try done.
  intros [_ H]%orb_false_iff. by apply IH.
Qed.

Lemma separator_at_no_hyphen (s : string) :
  has_hyphen s = false -> separator_at s = None.
Proof.
  intros H. unfold separator_at.
  pose proof (has_hyphen_drop (count_spaces s) s H) as Hd.
  destruct (drop (count_spaces s) s) as [| c r]; [done |].
  cbn in Hd. apply orb_false_iff in Hd as [-> _]. done.
Qed.

Lemma split_from_no_hyphen (piece s : string) :
  has_hyphen s = false -> split_from O piece s = [piece ++ s].
Proof.
  revert piece. induction s as [| c r IH]; intros piece H.
  - cbn. by rewrite append_empty_r.
  - cbn [split_from]. rewrite (separator_at_no_hyphen _ H).
    cbn in H. apply orb_false_iff in H as [_ H].
    rewrite (IH _ H), append_assoc. done.
Qed.

(** Text without a hyphen is one piece. *)
Lemma split_hyphen_no_hyphen (s : string) :
  has_hyphen s = false -> split_hyphen s = [s].
Proof. intros H. unfold split_hyphen. by rewrite split_from_no_hyphen. Qed.

Lemma clean_parts_no_hyphen (s : string) :
  has_hyphen s = false -> (List.length (clean_parts (split_hyphen s)) <= 1)%nat.
Proof.
  intros H. rewrite (split_hyphen_no_hyphen _ H). unfold clean_parts. cbn.
  destruct (nonempty (strip s)); cbn; lia.
Qed.

(** *** The year test is blind to a copied month *)

Lemma lower_letter (c : ascii) :
  is_letter c = Char.between 97 122 (Char.lower c).
Proof. by destruct c as [[] [] [] [] [] [] [] []]. Qed.

Lemma eq_ci_letter (a b : ascii) :
  Char.eq_ci a b = true -> is_letter a = true -> is_letter b = true.
Proof.
  unfold Char.eq_ci. intros H%Ascii.eqb_eq. by rewrite !lower_letter, H.
Qed.

Lemma letters_append (a b : string) :
  letters (a ++ b) = letters a && letters b.
Proof.
  induction a as [| x a IH]; [done |].
  rewrite append_cons. cbn. by rewrite IH, andb_assoc.
Qed.

Lemma take_add (n k : nat) (s : string) :
  take (n + k) s = take n s ++ take k (drop n s).
Proof.
  revert s. induction n as [| n IH]; intros [| c r]; cbn [take drop Nat.add];
    try done.
  - by destruct k.
  - by rewrite IH, append_cons.
Qed.

Lemma prefix_ci_letters (p s : string) :
  prefix_ci p s = true -> letters p = true ->
  letters (take (String.length p) s) = true.
Proof.
  revert s. induction p as [| a p IH]; intros [| b s]; cbn; try done.
  intros [Hab Hp]%andb_true_iff [Ha Hl]%andb_true_iff.
  by rewrite (eq_ci_letter a b), IH.
Qed.

Lemma alternative_at_letters (alt : string * string) (s m : string) :
  letters alt.1 = true -> letters alt.2 = true ->
  alternative_at alt s = Some m -> letters m = true.
Proof.
  destruct alt as [stem rest]. cbn. intros Hs Hr.
  destruct (prefix_ci stem s) eqn:H1; [| done].
  destruct (prefix_ci rest _) eqn:H2; intros [= <-].
  - rewrite take_add, letters_append.
    by rewrite (prefix_ci_letters _ _ H1), (prefix_ci_letters _ _ H2).
  - by apply prefix_ci_letters.
Qed.

Lemma first_alternative_letters (alts : list (string * string)) (s m : string) :
  Forall (fun alt => letters alt.1 = true /\ letters alt.2 = true) alts ->
  first_alternative alts s = Some m -> letters m = true.
Proof.
  induction 1 as [| alt alts [H1 H2] _ IH]; cbn; [done |].
  destruct (alternative_at alt s) as [m' |] eqn:Ha; [| done].
  intros [= <-]. by eapply alternative_at_letters.
Qed.

Lemma months_table_letters :
  Forall (fun alt => letters alt.1 = true /\ letters alt.2 = true) months_table.
Proof. unfold months_table. repeat constructor. Qed.

(** A month token holds letters only. *)
Lemma search_month_letters (s m : string) :
  search_month s = Some m -> letters m = true.
Proof.
  induction s as [| c r IH]; cbn [search_month];
    destruct (first_alternative months_table _) as [m' |] eqn:H;
    try done; intros [= <-];
    by eapply first_alternative_letters, H; apply months_table_letters.
Qed.

Lemma year_at_letter (c : ascii) (r : string) :
  is_letter c = true -> year_at (String c r) = false.
Proof.
  intros H. destruct r as [| c2 [| d1 [| d2 r]]]; cbn; try done.
  destruct (Ascii.eqb_spec c "2") as [-> |]; done.
Qed.

Lemma year_from_letters (w : bool) (s : string) :
  letters s = true -> year_from w s = false.
Proof.
  revert w. induction s as [| c r IH]; intros w; cbn [year_from letters];
    [done |].
  intros [Hc Hr]%andb_true_iff.
  by rewrite (year_at_letter _ _ Hc), andb_false_r, IH.
Qed.

Lemma year_at_append_space (s m : string) :
  year_at (s ++ String " " m) = year_at s.
Proof.
  destruct s as [| c1 [| c2 [| d1 [| d2 [| c r]]]]];
    rewrite ?append_cons, ?append_empty_l; cbn [year_at].
  - by destruct m as [| ? [| ? [| ? ?]]].
  - destruct m as [| ? [| ? ?]]; try done. by rewrite andb_false_r.
  - destruct m as [| ? ?]; try done. by rewrite !andb_false_r.
  - by rewrite !andb_false_r.
  - done.
  - done.
Qed.

Lemma year_from_append_space (w : bool) (s m : string) :
  letters m = true -> year_from w (s ++ String " " m) = year_from w s.
Proof.
  intros Hm. revert w. induction s as [| c r IH]; intros w.
  - rewrite append_empty_l. cbn [year_from].
    pose proof (year_at_append_space "" m) as H.
    rewrite append_empty_l in H. rewrite H. cbn.
    by rewrite andb_false_r, year_from_letters.
  - rewrite append_cons. cbn [year_from].
    rewrite <- append_cons, year_at_append_space. by rewrite IH.
Qed.

Lemma has_year_append_month (s m : string) :
  letters m = true -> has_year (s ++ " " ++ m) = has_year s.
Proof. apply year_from_append_space. Qed.

End StrFacts.

(** ** The date-range parser *)

Section ParseDates.

Context {libs : Libraries}.

Local Open Scope string_scope.

Lemma calls_parse_call (s : string) : calls (parse_call s) = [s].
Proof. reflexivity. Qed.

Lemma outcome_parse_call (s : string) :
  outcome (parse_call s) = dateparser_parse s.
Proof. reflexivity. Qed.

Lemma calls_replace_year (d : datetime) (y : Z) : calls (replace_year d y) = [].
Proof. unfold replace_year. by case_match. Qed.

Lemma outcome_replace_year (d : datetime) (y : Z) :
  outcome (replace_year d y)
  = if Datetime.check_date_fields y (Datetime.month d) (Datetime.day d)
    then Returns (Datetime.with_year d y)
    else Raises ValueError.
Proof. unfold replace_year. by case_match. Qed.

Lemma calls_to_timestamp (x : option datetime) : calls (to_timestamp x) = [].
Proof.
  destruct x as [d |]; [| done]. unfold to_timestamp, pd_Timestamp.
  by destruct (timestamp_in_bounds d).
Qed.

Lemma outcome_to_timestamp (x : option datetime) :
  outcome (to_timestamp x)
  = match x with
    | Some d =>
        if timestamp_in_bounds d then Returns (Some d)
        else Raises OutOfBoundsDatetime
    | None => Returns None
    end.
Proof.
  destruct x as [d |]; [| done]. unfold to_timestamp, pd_Timestamp.
  by destruct (timestamp_in_bounds d).
Qed.

Lemma calls_check_range (x1 x2 : option datetime) :
  calls (check_range x1 x2) = [].
Proof.
  unfold check_range. repeat case_match; try done.
  run. rewrite calls_replace_year, outcome_replace_year.
  by destruct (Datetime.check_date_fields _ _ _).
Qed.

Lemma outcome_check_range (x1 x2 : option datetime) :
  outcome (check_range x1 x2)
  = match x1, x2 with
    | Some sd, Some ed =>
        if Datetime.ltb ed sd
        then
          if Datetime.check_date_fields (Datetime.year ed + 1)
               (Datetime.month ed) (Datetime.day ed)
          then Returns (Some sd, Some (Datetime.with_year ed (Datetime.year ed + 1)))
          else Raises ValueError
        else Returns (Some sd, Some ed)
    | _, _ => Returns (None, None)
    end.
Proof.
  unfold check_range. destruct x1 as [sd |], x2 as [ed |]; try done.
  destruct (Datetime.ltb ed sd); [| done].
  run. rewrite outcome_replace_year.
  by destruct (Datetime.check_date_fields _ _ _).
Qed.

#[local] Hint Rewrite calls_parse_call outcome_parse_call calls_to_timestamp
  outcome_to_timestamp calls_check_range outcome_check_range : run.

(** The three branches of the [try] block. *)

Lemma parse_body_single (d y : string) :
  Str.has_hyphen d = false ->
  parse_body d y = (x ← parse_call (append_year d y); ret (x, x)).
Proof. intros H. unfold parse_body. by rewrite H. Qed.

Lemma parse_body_range (d y a b : string) :
  Str.clean_parts (Str.split_hyphen d) = [a; b] ->
  parse_body d y
  = (start_date ← parse_call (append_year (copy_month a b) y);
     end_date ← parse_call (append_year b y);
     check_range start_date end_date).
Proof.
  intros H. unfold parse_body. rewrite H.
  destruct (Str.has_hyphen d) eqn:Hh; [done |].
  pose proof (StrFacts.clean_parts_no_hyphen d Hh) as Hl.
  rewrite H in Hl. cbn in Hl. lia.
Qed.

Lemma parse_body_whole (d y : string) :
  Str.has_hyphen d = true ->
  List.length (Str.clean_parts (Str.split_hyphen d)) <> 2%nat ->
  parse_body d y = (x ← parse_call d; ret (x, x)).
Proof.
  intros Hh Hl. unfold parse_body. rewrite Hh.
  destruct (Str.clean_parts (Str.split_hyphen d)) as [| a [| b [| c l]]];
    cbn in Hl; done.
Qed.

(** Any text falls in one of the three branches. *)
Lemma parse_body_cases (d y : string) :
  (exists x, parse_body d y = (r ← parse_call x; ret (r, r)))
  \/ (exists a b, Str.clean_parts (Str.split_hyphen d) = [a; b]).
Proof.
  destruct (Str.has_hyphen d) eqn:Hh.
  - destruct (decide (List.length (Str.clean_parts (Str.split_hyphen d)) = 2%nat))
      as [Hl | Hl].
    + right. destruct (Str.clean_parts (Str.split_hyphen d))
        as [| a [| b [| c l]]]; cbn in Hl; try done. by exists a, b.
    + left. eexists. by apply parse_body_whole.
  - left. eexists. by apply parse_body_single.
Qed.

Lemma parse_body_all_or_nothing (d y : string) (sd ed : option datetime) :
  outcome (parse_body d y) = Returns (sd, ed) -> sd = None <-> ed = None.
Proof.
  destruct (parse_body_cases d y) as [[x ->] | (a & b & Hp)].
  - run. destruct (dateparser_parse x); naive_solver.
  - rewrite (parse_body_range d y a b Hp). run_cases; naive_solver.
Qed.

Lemma parse_attempt_all_or_nothing (d y : string) (sd ed : option datetime) :
  outcome (parse_attempt d y) = Returns (sd, ed) -> sd = None <-> ed = None.
Proof.
  unfold parse_attempt. run.
  destruct (outcome (parse_body d y)) as [[x1 x2] |] eqn:Hb; [| done].
  apply parse_body_all_or_nothing in Hb. run.
  destruct x1 as [d1 |], x2 as [d2 |]; run_cases; intros; simplify_eq;
    first [done | by destruct Hb as [? ?]; auto].
Qed.

(** The handler turns every exception into the failure pair. *)
Lemma outcome_parse_dates (s y : string) :
  outcome (parse_dates s y)
  = match outcome (parse_attempt (normalise s) y) with
    | Returns p => Returns p
    | Raises _ => Returns (None, None)
    end.
Proof. unfold parse_dates. by run. Qed.

Lemma calls_parse_dates (s y : string) :
  calls (parse_dates s y) = calls (parse_body (normalise s) y).
Proof.
  unfold parse_dates, parse_attempt. run.
  destruct (outcome (parse_body _ _)) as [[x1 x2] |]; run_cases;
    by rewrite ?app_nil_r.
Qed.

Lemma parse_dates_returns (s y : string) :
  exists p, outcome (parse_dates s y) = Returns p.
Proof. rewrite outcome_parse_dates. case_match; eauto. Qed.

Lemma parse_dates_all_or_nothing (s y : string) :
  exists sd ed,
    outcome (parse_dates s y) = Returns (sd, ed) /\ (sd = None <-> ed = None).
Proof.
  rewrite outcome_parse_dates.
  destruct (outcome (parse_attempt _ _)) as [[sd ed] |] eqn:Ha.
  - exists sd, ed. split; [done |]. by eapply parse_attempt_all_or_nothing.
  - by exists None, None.
Qed.

End ParseDates.

#[local] Hint Rewrite @calls_parse_call @outcome_parse_call @calls_to_timestamp
  @outcome_to_timestamp @calls_check_range @outcome_check_range : run.

(** ** Claims on the date-range parser *)

Section Claims.

Context {libs : Libraries}.

Local Open Scope string_scope.

Lemma parts_of_range (s y a b : string) :
  parts_of s = [a; b] ->
  parse_body (normalise s) y
  = (start_date ← parse_call (append_year (copy_month a b) y);
     end_date ← parse_call (append_year b y);
     check_range start_date end_date).
Proof. apply parse_body_range. Qed.

Lemma parts_of_has_hyphen (s : string) :
  (1 < List.length (parts_of s))%nat -> Str.has_hyphen (normalise s) = true.
Proof.
  intros H. destruct (Str.has_hyphen (normalise s)) eqn:Hh; [done |].
  pose proof (StrFacts.clean_parts_no_hyphen _ Hh). unfold parts_of in H. lia.
Qed.

Lemma has_year_copy_month (a b : string) :
  Str.has_year (copy_month a b) = Str.has_year a.
Proof.
  unfold copy_month. destruct (Str.search_month a); [done |].
  destruct (Str.search_month b) as [m |] eqn:Hm; [| done].
  apply StrFacts.has_year_append_month. by eapply StrFacts.search_month_letters.
Qed.

(** The texts handed to the parser for a range of two parts. *)
Lemma calls_range (s y a b : string) :
  parts_of s = [a; b] ->
  calls (parse_dates s y)
  = append_year (copy_month a b) y
    :: match dateparser_parse (append_year (copy_month a b) y) with
       | Returns _ => [append_year b y]
       | Raises _ => []
       end.
Proof.
  intros Hp. rewrite calls_parse_dates, (parts_of_range s y a b Hp).
  run_cases; done.
Qed.

(** The result of the [try] block for a range of two parts, from what the
    parser returns. *)
Lemma outcome_range_any (s y a b : string) :
  parts_of s = [a; b] ->
  outcome (parse_attempt (normalise s) y)
  = match dateparser_parse (append_year (copy_month a b) y) with
    | Raises e => Raises e
    | Returns r1 =>
        match dateparser_parse (append_year b y) with
        | Raises e => Raises e
        | Returns r2 =>
            match r1, r2 with
            | Some sd, Some ed =>
                if Datetime.ltb ed sd
                then
                  let ed' := Datetime.with_year ed (Datetime.year ed + 1) in
                  if Datetime.check_date_fields (Datetime.year ed + 1)
                       (Datetime.month ed) (Datetime.day ed)
                  then
                    if timestamp_in_bounds sd && timestamp_in_bounds ed'
                    then Returns (Some sd, Some ed')
                    else Raises OutOfBoundsDatetime
                  else Raises ValueError
                else
                  if timestamp_in_bounds sd && timestamp_in_bounds ed
                  then Returns (Some sd, Some ed)
                  else Raises OutOfBoundsDatetime
            | _, _ => Returns (None, None)
            end
        end
    end.
Proof.
  intros Hp. unfold parse_attempt.
  rewrite (parts_of_range s y a b Hp). run.
  destruct (dateparser_parse (append_year (copy_month a b) y)) as [r1 |];
    [| done]; run.
  destruct (dateparser_parse (append_year b y)) as [r2 |]; [| done]; run.
  destruct r1 as [sd |], r2 as [ed |]; try done.
  destruct (Datetime.ltb ed sd);
    [destruct (Datetime.check_date_fields _ _ _); [| done] |];
    cbv zeta; run; (destruct (timestamp_in_bounds sd); [| done]); run;
    by destruct (timestamp_in_bounds _).
Qed.

Lemma outcome_range (s y a b : string) (sd ed : datetime) :
  parts_of s = [a; b] ->
  dateparser_parse (append_year (copy_month a b) y) = Returns (Some sd) ->
  dateparser_parse (append_year b y) = Returns (Some ed) ->
  outcome (parse_attempt (normalise s) y)
  = if Datetime.ltb ed sd
    then
      let ed' := Datetime.with_year ed (Datetime.year ed + 1) in
      if Datetime.check_date_fields (Datetime.year ed + 1)
           (Datetime.month ed) (Datetime.day ed)
      then
        if timestamp_in_bounds sd && timestamp_in_bounds ed'
        then Returns (Some sd, Some ed')
        else Raises OutOfBoundsDatetime
      else Raises ValueError
    else
      if timestamp_in_bounds sd && timestamp_in_bounds ed
      then Returns (Some sd, Some ed)
      else Raises OutOfBoundsDatetime.
Proof.
  intros Hp H1 H2. by rewrite (outcome_range_any s y a b Hp), H1, H2.
Qed.

(** The result when the whole text goes to the parser as one date. *)
Lemma outcome_one_date (d y x : string) :
  parse_body d y = (r ← parse_call x; ret (r, r)) ->
  outcome (try_except (parse_attempt d y) (fun _ => ret (None, None)))
  = Returns match dateparser_parse x with
            | Returns (Some t) =>
                if timestamp_in_bounds t then (Some t, Some t) else (None, None)
            | _ => (None, None)
            end.
Proof.
  intros Hb. unfold parse_attempt. rewrite Hb. run.
  destruct (dateparser_parse x) as [[t |] |]; run; [| done ..].
  destruct (timestamp_in_bounds t) eqn:Ht; run; [| done].
  by rewrite Ht.
Qed.

(** C1, as amended.  When [parse_dates] returns a range and the year of the
    end date as parsed is not earlier than the year of the start date as
    parsed, the end date returned is not before the start date. *)
Theorem range_ordered (s y : string) (sd ed : datetime) :
  outcome (parse_dates s y) = Returns (Some sd, Some ed) ->
  (forall a b da db,
      calls (parse_dates s y) = [a; b] ->
      dateparser_parse a = Returns (Some da) ->
      dateparser_parse b = Returns (Some db) ->
      (Datetime.year da <= Datetime.year db)%Z) ->
  Datetime.leb sd ed = true.
Proof.
  intros Hout Hyears.
  destruct (parse_body_cases (normalise s) y) as [[x Hb] | (a & b & Hp)].
  - unfold parse_dates in Hout. cbv zeta in Hout.
    rewrite (outcome_one_date _ _ _ Hb) in Hout.
    destruct (dateparser_parse x) as [[t |] |]; try done.
    destruct (timestamp_in_bounds t); simplify_eq.
    apply DatetimeFacts.leb_refl.
  - pose proof (calls_range s y a b Hp) as Hc.
    rewrite outcome_parse_dates, (outcome_range_any s y a b Hp) in Hout.
    destruct (dateparser_parse (append_year (copy_month a b) y))
      as [[da |] |] eqn:H1; try done;
      destruct (dateparser_parse (append_year b y)) as [[db |] |] eqn:H2;
      try done.
    specialize (Hyears _ _ da db Hc H1 H2).
    destruct (Datetime.ltb db da) eqn:Hlt; cbv zeta in Hout;
      repeat (case_match; try done); simplify_eq.
    + by apply DatetimeFacts.leb_with_next_year.
    + unfold Datetime.leb. by rewrite Hlt.
Qed.

(** C2, as amended.  A text that splits in more than two parts never makes
    [parse_dates] raise: the whole normalised text goes to the parser, once
    and without the context year, and its date is both start and end. *)
Theorem ambiguous_split_whole_text (s y : string) :
  (2 < List.length (parts_of s))%nat ->
  calls (parse_dates s y) = [normalise s]
  /\ outcome (parse_dates s y)
     = Returns match dateparser_parse (normalise s) with
               | Returns (Some t) =>
                   if timestamp_in_bounds t then (Some t, Some t)
                   else (None, None)
               | _ => (None, None)
               end.
Proof.
  intros Hl.
  assert (parse_body (normalise s) y
          = (r ← parse_call (normalise s); ret (r, r))) as Hb.
  { apply parse_body_whole; [apply parts_of_has_hyphen |];
      unfold parts_of in *; lia. }
  split.
  - rewrite calls_parse_dates, Hb. run.
    by destruct (dateparser_parse _).
  - unfold parse_dates. cbv zeta. by apply outcome_one_date.
Qed.

(** C3, as amended.  For a range of two parts, a part in which the year test
    finds no year goes to the parser with the context year appended, and a
    part that has one goes without: the second part as it is, the first
    part as the month step left it. *)
Theorem year_appended_when_missing (s y a b : string) :
  parts_of s = [a; b] ->
  exists x1 x2,
    calls (parse_dates s y)
    = x1 :: match dateparser_parse x1 with
            | Returns _ => [x2]
            | Raises _ => []
            end
    /\ (Str.has_year a = false -> Str.has_year b = false ->
        x1 = copy_month a b ++ " " ++ y /\ x2 = b ++ " " ++ y)
    /\ (Str.has_year a = true -> x1 = copy_month a b)
    /\ (Str.has_year b = true -> x2 = b)
    /\ (Str.has_year a = false -> x1 = copy_month a b ++ " " ++ y)
    /\ (Str.has_year b = false -> x2 = b ++ " " ++ y).
Proof.
  intros Hp. exists (append_year (copy_month a b) y), (append_year b y).
  split; [by apply calls_range |].
  unfold append_year. rewrite has_year_copy_month.
  repeat split; intros; repeat case_match; congruence.
Qed.

(** C4.  For a range of two parts whose first part names no month while the
    second does, the first text handed to the parser is the first part with
    the month token of the second part appended, and then the year step
    applied. *)
Theorem month_copied_to_start (s y a b m : string) :
  parts_of s = [a; b] ->
  Str.search_month a = None ->
  Str.search_month b = Some m ->
  copy_month a b = a ++ " " ++ m
  /\ exists rest,
      calls (parse_dates s y)
      = (if Str.has_year a then a ++ " " ++ m
         else (a ++ " " ++ m) ++ " " ++ y) :: rest.
Proof.
  intros Hp Ha Hb.
  assert (copy_month a b = a ++ " " ++ m) as Hc.
  { unfold copy_month. by rewrite Ha, Hb. }
  split; [done |]. rewrite (calls_range s y a b Hp). eexists.
  unfold append_year at 1. rewrite has_year_copy_month, Hc. reflexivity.
Qed.

(** C5.  With a parser that reads "30 Dec 2022" and "2 Jan 2022" as those
    days, the text "30 Dec - 2 Jan" of the year 2022 yields 2022-12-30 and
    2023-01-02: the end date as parsed is before the start date, and its
    year moves one on. *)
Theorem year_rollover_example :
  dateparser_parse "30 Dec 2022" = Returns (Some (Datetime.of_date 2022 12 30)) ->
  dateparser_parse "2 Jan 2022" = Returns (Some (Datetime.of_date 2022 1 2)) ->
  timestamp_in_bounds (Datetime.of_date 2022 12 30) = true ->
  timestamp_in_bounds (Datetime.of_date 2023 1 2) = true ->
  parse_dates "30 Dec - 2 Jan" "2022"
  = (["30 Dec 2022"; "2 Jan 2022"],
     Returns (Some (Datetime.of_date 2022 12 30),
              Some (Datetime.of_date 2023 1 2)))
  /\ Datetime.ltb (Datetime.of_date 2022 1 2) (Datetime.of_date 2022 12 30)
     = true.
Proof.
  intros H1 H2 B1 B2. split; [| done].
  assert (parts_of "30 Dec - 2 Jan" = ["30 Dec"; "2 Jan"]) as Hp
    by (vm_compute; reflexivity).
  assert (append_year (copy_month "30 Dec" "2 Jan") "2022" = "30 Dec 2022")
    as E1 by (vm_compute; reflexivity).
  assert (append_year "2 Jan" "2022" = "2 Jan 2022") as E2
    by (vm_compute; reflexivity).
  apply M_eq.
  - rewrite (calls_range _ _ _ _ Hp), E1, E2, H1. done.
  - rewrite outcome_parse_dates.
    rewrite (outcome_range _ _ _ _ (Datetime.of_date 2022 12 30)
               (Datetime.of_date 2022 1 2) Hp); rewrite ?E1, ?E2; try done.
    change (Datetime.ltb _ _) with true. cbv iota.
    change (Datetime.check_date_fields _ _ _) with true. cbv iota zeta.
    change (Datetime.with_year _ _) with (Datetime.of_date 2023 1 2).
    by rewrite B1, B2.
Qed.


(** C9.  [parse_dates] returns on every text and context year; whatever the
    [try] block raises, the pair returned is the failure pair; and so it is
    when moving the end date one year on meets a 29 February that the next
    year does not have. *)
Theorem parse_dates_never_raises (s y : string) :
  (exists p, outcome (parse_dates s y) = Returns p)
  /\ (forall e,
         outcome (parse_attempt (normalise s) y) = Raises e ->
         outcome (parse_dates s y) = Returns (None, None))
  /\ (forall a b sd ed,
         parts_of s = [a; b] ->
         dateparser_parse (append_year (copy_month a b) y) = Returns (Some sd) ->
         dateparser_parse (append_year b y) = Returns (Some ed) ->
         Datetime.ltb ed sd = true ->
         Datetime.month ed = 2%Z -> Datetime.day ed = 29%Z ->
         Datetime.is_leap (Datetime.year ed + 1) = false ->
         outcome (parse_attempt (normalise s) y) = Raises ValueError
         /\ outcome (parse_dates s y) = Returns (None, None)).
Proof.
  split; [apply parse_dates_returns |].
  split.
  - intros e He. by rewrite outcome_parse_dates, He.
  - intros a b sd ed Hp H1 H2 Hlt Hm Hd Hleap.
    rewrite outcome_parse_dates, (outcome_range s y a b sd ed Hp H1 H2), Hlt.
    cbv zeta.
    assert (Datetime.check_date_fields (Datetime.year ed + 1)
              (Datetime.month ed) (Datetime.day ed) = false) as ->; [| done].
    rewrite Hm, Hd. unfold Datetime.check_date_fields, Datetime.days_in_month.
    rewrite Hleap. cbn. by rewrite !andb_false_r.
Qed.

(** C10.  The pair [parse_dates] returns has both dates or none: the start
    date is missing exactly when the end date is. *)
Theorem parse_dates_both_or_none (s y : string) :
  exists sd ed,
    outcome (parse_dates s y) = Returns (sd, ed)
    /\ (sd = None <-> ed = None).
Proof. apply parse_dates_all_or_nothing. Qed.

End Claims.

(** ** The sheet pipeline *)

Section Sheets.

Context {libs : Libraries} {pandas : Pandas}.

Local Open Scope string_scope.

Lemma outcome_parsed_range (x y : string) :
  outcome (parse_dates x y) = Returns (parsed_range x y).
Proof.
  unfold parsed_range. by destruct (parse_dates_returns x y) as [p ->].
Qed.

Lemma isdigit_digit (n : Z) : Char.isdigit (Datetime.digit n) = true.
Proof.
  unfold Datetime.digit.
  pose proof (Z.mod_pos_bound n 10 eq_refl) as Hr.
  remember (n mod 10)%Z as r eqn:Er. clear Er.
  assert (r = 0 \/ r = 1 \/ r = 2 \/ r = 3 \/ r = 4 \/ r = 5 \/ r = 6
          \/ r = 7 \/ r = 8 \/ r = 9)%Z as H by lia.
  clear Hr. repeat (destruct H as [-> | H]; [reflexivity |]).
  by subst.
Qed.

(** A date written out has the shape [YYYY-MM-DD]. *)
Lemma is_ymd_strftime (d : datetime) :
  Datetime.is_ymd (Datetime.strftime_ymd d) = true.
Proof.
  cbv [Datetime.strftime_ymd Datetime.zero_padded String.append
       Datetime.is_ymd forallb].
  by rewrite !isdigit_digit.
Qed.

Lemma lookup_set_cell (name : string) (v : option cell) (row : gmap string cell) :
  set_cell name v row !! name = v.
Proof. destruct v; [apply lookup_insert_eq | apply lookup_delete_eq]. Qed.

Lemma lookup_set_cell_ne (name k : string) (v : option cell)
    (row : gmap string cell) :
  name <> k -> set_cell name v row !! k = row !! k.
Proof.
  intros Hk. destruct v; cbn [set_cell];
    [by rewrite lookup_insert_ne | by rewrite lookup_delete_ne].
Qed.

Lemma mapM_fmap {A B C} (f : B -> M C) (g : A -> B) (l : list A) :
  mapM f (g <$> l) = mapM (fun a => f (g a)) l.
Proof. induction l as [| a l IH]; [done |]. cbn [fmap list_fmap mapM]. by rewrite <- IH. Qed.

Lemma mapM_ext {A B} (f g : A -> M B) (l : list A) :
  (forall a, f a = g a) -> mapM f l = mapM g l.
Proof. intros H. induction l as [| a l IH]; [done |]. cbn [mapM]. by rewrite H, IH. Qed.

(** Line 136 on the sheet that line 133 leaves: [parse_dates] meets the date
    texts of the rows, one after the other. *)
Lemma mapM_astype (sheet_name : string) (df : frame) :
  mapM (fun row => apply_parse_dates (row !! "Date") sheet_name)
       (rows (astype_str astype_str_value "Date" df))
  = mapM (fun text => apply_parse_dates (CText <$> text) sheet_name)
         (date_text df <$> rows df).
Proof.
  cbn [astype_str rows]. rewrite !mapM_fmap. apply mapM_ext. intros row.
  by rewrite lookup_set_cell.
Qed.

Lemma outcome_mapM_strings (y : string) (texts : list (option string)) :
  Forall is_Some texts ->
  outcome (mapM (fun text => apply_parse_dates (CText <$> text) y) texts)
  = Returns ((fun text => parsed_range text y) <$> leading_strings texts).
Proof.
  induction 1 as [| text texts [t ->] _ IH]; [done |].
  cbn [mapM leading_strings fmap list_fmap option_fmap option_map apply_parse_dates].
  run. rewrite outcome_parsed_range. run. by rewrite IH.
Qed.

Lemma outcome_mapM_gap (y : string) (texts : list (option string)) :
  ~ Forall is_Some texts ->
  outcome (mapM (fun text => apply_parse_dates (CText <$> text) y) texts)
  = Raises AttributeError.
Proof.
  induction texts as [| [t |] texts IH]; intros Hgap.
  - by destruct Hgap.
  - cbn [mapM fmap option_fmap option_map apply_parse_dates].
    run. rewrite outcome_parsed_range. run. rewrite IH; [done |].
    intros Hall. apply Hgap. constructor; [by eexists | done].
  - cbn [mapM fmap option_fmap option_map apply_parse_dates]. by run.
Qed.

Lemma calls_mapM_texts (y : string) (texts : list (option string)) :
  calls (mapM (fun text => apply_parse_dates (CText <$> text) y) texts)
  = mjoin ((fun text => calls (parse_dates text y)) <$> leading_strings texts).
Proof.
  induction texts as [| [t |] texts IH]; [done | | done].
  cbn [mapM leading_strings fmap list_fmap option_fmap option_map apply_parse_dates].
  run. rewrite outcome_parsed_range. run. rewrite IH.
  destruct (outcome (mapM _ texts)); cbn; by rewrite ?app_nil_r.
Qed.

(** The steps after the parsing, on one row of the sheet whose date text is
    a string. *)
Lemma row_pipeline (sheet_name : string) (df : frame) (row : gmap string cell)
    (text : string) :
  date_text df row = Some text ->
  let row1 := set_cell "Date" (CText <$> date_text df row) row in
  let v := parsed_range text sheet_name in
  let row2 :=
    set_cell "End Date" (CDatetime <$> v.2)
      (set_cell "Start Date" (CDatetime <$> v.1) row1) in
  let format name r :=
    set_cell name
      match r !! name with
      | Some (CDatetime d) => Some (CText (Datetime.strftime_ymd d))
      | _ => None
      end r in
  (if bool_decide (is_Some (row2 !! "Start Date"))
      && bool_decide (is_Some (row2 !! "End Date"))
   then [format "End Date" (format "Start Date" row2)]
   else [])
  = option_list (expected_row sheet_name df row).
Proof.
  intros Ht. cbv zeta. unfold expected_row. rewrite Ht.
  cbn [fmap option_fmap option_map set_cell].
  destruct (parsed_range text sheet_name) as [[sd |] [ed |]];
    cbn [fst snd fmap option_fmap option_map set_cell].
  - rewrite lookup_insert_ne, !lookup_insert_eq by done.
    rewrite !bool_decide_eq_true_2 by eauto. cbn [andb set_cell].
    rewrite lookup_insert_ne, lookup_insert_eq by done. cbn [set_cell option_list].
    apply (f_equal (fun r => [r])), map_eq. intros k.
    rewrite !lookup_insert. repeat case_decide; done.
  - rewrite lookup_delete_eq, (bool_decide_eq_false_2 (is_Some None)), andb_false_r;
      [done | by intros [? ?]].
  - rewrite lookup_insert_ne, lookup_delete_eq by done.
    rewrite (bool_decide_eq_false_2 (is_Some None)); [done | by intros [? ?]].
  - rewrite lookup_delete_eq, (bool_decide_eq_false_2 (is_Some None)), andb_false_r;
      [done | by intros [? ?]].
Qed.

(** Lines 136 to 145 on the rows of a sheet whose date texts are all
    strings. *)
Lemma rows_pipeline (sheet_name : string) (df : frame)
    (l : list (gmap string cell)) :
  Forall (fun row => is_Some (date_text df row)) l ->
  let format name r :=
    set_cell name
      match r !! name with
      | Some (CDatetime d) => Some (CText (Datetime.strftime_ymd d))
      | _ => None
      end r in
  format "End Date"
    <$> (format "Start Date"
           <$> List.filter
                 (fun row => bool_decide (is_Some (row !! "Start Date"))
                             && bool_decide (is_Some (row !! "End Date")))
                 (zip_with
                    (fun row v =>
                       set_cell "End Date" (CDatetime <$> v.2)
                         (set_cell "Start Date" (CDatetime <$> v.1) row))
                    ((fun row => set_cell "Date" (CText <$> date_text df row) row)
                       <$> l)
                    ((fun text => parsed_range text sheet_name)
                       <$> leading_strings (date_text df <$> l))))
  = omap (expected_row sheet_name df) l.
Proof.
  cbv zeta. induction 1 as [| row l [text Ht] _ IH]; [done |].
  cbn [fmap list_fmap leading_strings]. rewrite Ht at 2.
  cbn [leading_strings fmap list_fmap zip_with omap list_omap List.filter].
  pose proof (row_pipeline sheet_name df row text Ht) as Hrow. cbv zeta in Hrow.
  destruct (bool_decide _ && bool_decide _);
    destruct (expected_row sheet_name df row); simpl in Hrow;
    simplify_eq; cbn [fmap list_fmap]; rewrite IH; reflexivity.
Qed.

Lemma Forall_date_text (df : frame) (l : list (gmap string cell)) :
  Forall is_Some (date_text df <$> l)
  <-> Forall (fun row => is_Some (date_text df row)) l.
Proof. by rewrite Forall_fmap. Qed.

Lemma process_dates_no_date (filepath sheet_name : string) (df : frame) :
  read_excel filepath sheet_name = Returns df ->
  has_column "Date" df = false ->
  process_dates filepath sheet_name = ret empty_frame.
Proof. intros Hr Hc. unfold process_dates. by rewrite Hr, Hc. Qed.

Lemma process_dates_unreadable (filepath sheet_name : string) (e : exn) :
  read_excel filepath sheet_name = Raises e ->
  process_dates filepath sheet_name = ret empty_frame.
Proof. intros Hr. unfold process_dates. by rewrite Hr. Qed.

(** A missing value that line 133 leaves missing stops line 136. *)
Lemma outcome_process_dates_gap (filepath sheet_name : string) (df : frame) :
  read_excel filepath sheet_name = Returns df ->
  has_column "Date" df = true ->
  ~ Forall is_Some (date_text df <$> rows df) ->
  outcome (process_dates filepath sheet_name) = Raises AttributeError.
Proof.
  intros Hr Hc Hgap. unfold process_dates. rewrite Hr, Hc. cbn [negb]. run.
  by rewrite mapM_astype, outcome_mapM_gap.
Qed.

(** With no row, line 136 raises. *)
Lemma outcome_process_dates_no_row (filepath sheet_name : string) (df : frame) :
  read_excel filepath sheet_name = Returns df ->
  has_column "Date" df = true ->
  rows df = [] ->
  outcome (process_dates filepath sheet_name) = Raises ValueError.
Proof.
  intros Hr Hc Hrows. unfold process_dates. rewrite Hr, Hc. cbn [negb]. run.
  rewrite mapM_astype, Hrows. done.
Qed.

(** The outcome of [process_dates] on a sheet with a [Date] column, with
    rows, and whose date texts are all strings. *)
Lemma outcome_process_dates (filepath sheet_name : string) (df : frame) :
  read_excel filepath sheet_name = Returns df ->
  has_column "Date" df = true ->
  rows df <> [] ->
  Forall is_Some (date_text df <$> rows df) ->
  let parsed :=
    (fun text => parsed_range text sheet_name)
      <$> leading_strings (date_text df <$> rows df) in
  outcome (process_dates filepath sheet_name)
  = if infers_datetime parsed.*1 && infers_datetime parsed.*2
    then Returns (Frame (add_column "End Date"
                           (add_column "Start Date" (columns df)))
                        (omap (expected_row sheet_name df) (rows df)))
    else Raises AttributeError.
Proof.
  intros Hr Hc Hrows Hall. cbv zeta. unfold process_dates.
  rewrite Hr, Hc. cbn [negb]. run.
  rewrite mapM_astype, (outcome_mapM_strings _ _ Hall).
  pose proof (rows_pipeline sheet_name df (rows df)
                (proj1 (Forall_date_text _ _) Hall)) as Hpipe.
  cbv zeta in Hpipe.
  destruct (_ <$> leading_strings _) as [| v parsed] eqn:Hparsed.
  { destruct (rows df) as [| row l]; [done |].
    apply Forall_cons in Hall as [[t Ht] _]. cbn in Hparsed.
    rewrite Ht in Hparsed. done. }
  cbn [assign_pair]. run.
  destruct (infers_datetime (v :: parsed).*1); cbn [strftime_column andb]; run;
    [| done].
  destruct (infers_datetime (v :: parsed).*2); cbn [strftime_column]; run;
    [| done].
  cbn [columns rows dropna astype_str]. by rewrite <- Hpipe.
Qed.

(** A sheet on which every text fails gives as many failure pairs as it has
    rows. *)
Lemma parsed_all_failed (sheet_name : string) (df : frame)
    (l : list (gmap string cell)) :
  Forall (fun row =>
            exists text,
              date_text df row = Some text
              /\ parsed_range text sheet_name = (None, None)) l ->
  Forall is_Some (date_text df <$> l)
  /\ (fun text => parsed_range text sheet_name)
       <$> leading_strings (date_text df <$> l)
     = replicate (List.length l) (None, None).
Proof.
  induction 1 as [| row l (text & Ht & Hp) _ [IH1 IH2]]; [done |].
  cbn [fmap list_fmap]. rewrite Ht. split; [constructor; [by eexists | done] |].
  cbn [leading_strings fmap list_fmap List.length replicate].
  by rewrite Hp, IH2.
Qed.

Lemma outcome_main (filepath : string) (df_2022 df_2023 df_2024 : frame) :
  outcome (process_dates filepath "2022") = Returns df_2022 ->
  outcome (process_dates filepath "2023") = Returns df_2023 ->
  outcome (process_dates filepath "2024") = Returns df_2024 ->
  outcome (main filepath)
  = Returns (concat_frames [df_2022; df_2023; df_2024]).
Proof.
  intros H22 H23 H24. unfold main. run. rewrite H22. run. rewrite H23. run.
  by rewrite H24.
Qed.

(** [main] has no [try]: the first exception of a sheet is its own. *)
Lemma main_raises (filepath sheet_name : string) (e : exn)
    (before after : list string) :
  ["2022"; "2023"; "2024"] = (before ++ sheet_name :: after)%list ->
  Forall (fun name => exists out, outcome (process_dates filepath name) = Returns out)
         before ->
  outcome (process_dates filepath sheet_name) = Raises e ->
  outcome (main filepath) = Raises e.
Proof.
  intros Hsheets Hbefore He. unfold main.
  destruct before as [| n1 [| n2 [| n3 before]]]; simplify_eq/=.
  - run. by rewrite He.
  - apply Forall_cons in Hbefore as [[d22 H22] _].
    run. rewrite H22. run. by rewrite He.
  - apply Forall_cons in Hbefore as [[d22 H22] Hbefore].
    apply Forall_cons in Hbefore as [[d23 H23] _].
    run. rewrite H22. run. rewrite H23. run. by rewrite He.
  - by destruct before.
Qed.

(** An empty frame adds nothing to a concatenation. *)
Lemma concat_frames_skip_empty (before after : list frame) :
  concat_frames (before ++ empty_frame :: after)
  = concat_frames (before ++ after).
Proof.
  unfold concat_frames. f_equal.
  - by rewrite !foldl_app.
  - by rewrite !fmap_app, !join_app.
Qed.

(** A sheet that comes out empty, with no date parsed, leaves [main] to the
    other sheets: [main] is what processing them in turn and concatenating
    their frames is. *)
Lemma empty_sheet_skipped (filepath sheet_name : string) :
  process_dates filepath sheet_name = ret empty_frame ->
  forall before after : list string,
    ["2022"; "2023"; "2024"] = (before ++ sheet_name :: after)%list ->
    main filepath
    = (dfs ← mapM (process_dates filepath) (before ++ after);
       ret (concat_frames dfs)).
Proof.
  intros Hempty before after Hsheets. unfold main.
  destruct before as [| n1 [| n2 [| n3 before]]]; simplify_eq/=;
    [| | | by destruct before];
    rewrite Hempty.
  - destruct (process_dates filepath "2023") as [l1 [d1 | e1]];
      [destruct (process_dates filepath "2024") as [l2 [d2 | e2]] |];
      cbn; by rewrite ?app_nil_r.
  - destruct (process_dates filepath "2022") as [l1 [d1 | e1]];
      [destruct (process_dates filepath "2024") as [l2 [d2 | e2]] |];
      cbn; by rewrite ?app_nil_r.
  - destruct (process_dates filepath "2022") as [l1 [d1 | e1]];
      [destruct (process_dates filepath "2023") as [l2 [d2 | e2]] |];
      cbn; by rewrite ?app_nil_r.
Qed.

(** C7.  A sheet that has no [Date] column comes out of [process_dates] as
    the empty frame, with no date parsed.  When it is one of the three
    sheets of [main], [main] is what processing the other sheets in turn and
    concatenating their frames is; so when these come out as frames, the
    batch is their concatenation. *)
Theorem sheet_without_date_skipped (filepath sheet_name : string) (df : frame) :
  read_excel filepath sheet_name = Returns df ->
  has_column "Date" df = false ->
  process_dates filepath sheet_name = ret empty_frame
  /\ forall before after : list string,
      ["2022"; "2023"; "2024"] = (before ++ sheet_name :: after)%list ->
      main filepath
      = (dfs ← mapM (process_dates filepath) (before ++ after);
         ret (concat_frames dfs))
      /\ forall dfs : list frame,
          outcome (mapM (process_dates filepath) (before ++ after)) = Returns dfs ->
          outcome (main filepath) = Returns (concat_frames dfs).
Proof.
  intros Hr Hc.
  pose proof (process_dates_no_date _ _ _ Hr Hc) as Hempty.
  split; [done |]. intros before after Hsheets.
  pose proof (empty_sheet_skipped _ _ Hempty before after Hsheets) as Hmain.
  split; [done |]. intros dfs Hdfs. rewrite Hmain. run. by rewrite Hdfs.
Qed.

(** C8, where the code departs from it.  On a sheet with a [Date] column and
    at least one row, on which [parse_dates] returns no dates for any row,
    the two date columns hold missing values only; when such a column is not
    a datetime column, line 144 raises [AttributeError]: [process_dates]
    returns no frame, and [main], reaching this sheet, raises it too. *)
Theorem all_unparseable_sheet_raises (filepath sheet_name : string) (df : frame) :
  read_excel filepath sheet_name = Returns df ->
  has_column "Date" df = true ->
  rows df <> [] ->
  Forall (fun row =>
            exists text,
              date_text df row = Some text
              /\ parsed_range text sheet_name = (None, None))
         (rows df) ->
  infers_datetime (replicate (List.length (rows df)) None) = false ->
  outcome (process_dates filepath sheet_name) = Raises AttributeError
  /\ forall before after : list string,
      ["2022"; "2023"; "2024"] = (before ++ sheet_name :: after)%list ->
      Forall (fun name =>
                exists out, outcome (process_dates filepath name) = Returns out)
             before ->
      outcome (main filepath) = Raises AttributeError.
Proof.
  intros Hr Hc Hrows Hfail Hdtype.
  destruct (parsed_all_failed _ _ _ Hfail) as [Hall Hparsed].
  assert (outcome (process_dates filepath sheet_name) = Raises AttributeError)
    as Hraise.
  { rewrite (outcome_process_dates _ _ _ Hr Hc Hrows Hall). cbv zeta.
    rewrite Hparsed, !fmap_replicate. cbn [fst snd]. by rewrite Hdtype. }
  split; [done |]. intros before after Hsheets Hbefore.
  by apply (main_raises _ _ _ _ _ Hsheets Hbefore).
Qed.

End Sheets.

(** ** The claims on concrete inputs *)

Section Instances.

Local Open Scope string_scope.

Local Existing Instance Reference.workbook_libraries.

Local Existing Instance Reference.pandas.

(** On "30 Dec - 2 Jan" in 2022 both dates are parsed in the year 2022, and
    the range returned is in order. *)
Lemma range_ordered_witness :
  outcome (parse_dates "30 Dec - 2 Jan" "2022")
  = Returns (Some (Datetime.of_date 2022 12 30), Some (Datetime.of_date 2023 1 2))
  /\ Datetime.leb (Datetime.of_date 2022 12 30) (Datetime.of_date 2023 1 2) = true.
Proof.
  split; [vm_compute; reflexivity |].
  apply (range_ordered "30 Dec - 2 Jan" "2022").
  - vm_compute. reflexivity.
  - intros a b da db Hc Ha Hb. vm_compute in Hc.
    injection Hc as <- <-. vm_compute in Ha, Hb.
    injection Ha as <-. injection Hb as <-. vm_compute. discriminate.
Defined.

(** C1 does not hold as stated: "5 Jan 2025 - 3 Jan 2023" comes out as
    2025-01-05 to 2024-01-03, an end date before the start date. *)
Lemma range_out_of_order :
  outcome (parse_dates "5 Jan 2025 - 3 Jan 2023" "2022")
  = Returns (Some (Datetime.of_date 2025 1 5), Some (Datetime.of_date 2024 1 3))
  /\ Datetime.leb (Datetime.of_date 2025 1 5) (Datetime.of_date 2024 1 3) = false.
Proof. split; vm_compute; reflexivity. Qed.

(** The text "2023-12-25" splits in three parts and goes to the parser
    whole. *)
Lemma ambiguous_split_whole_text_witness :
  (2 < List.length (parts_of "2023-12-25"))%nat
  /\ calls (parse_dates "2023-12-25" "2022") = ["2023-12-25"]
  /\ outcome (parse_dates "2023-12-25" "2022")
     = Returns (Some (Datetime.of_date 2023 12 25),
                Some (Datetime.of_date 2023 12 25)).
Proof.
  split; [vm_compute; lia |].
  exact (ambiguous_split_whole_text "2023-12-25" "2022"
           ltac:(vm_compute; lia)).
Defined.

(** C2 does not hold as stated: "2023-12-25" splits in three parts and yet
    is parsed, as one date. *)
Lemma ambiguous_split_parsed :
  parts_of "2023-12-25" = ["2023"; "12"; "25"]
  /\ outcome (parse_dates "2023-12-25" "2022")
     = Returns (Some (Datetime.of_date 2023 12 25),
                Some (Datetime.of_date 2023 12 25)).
Proof. split; vm_compute; reflexivity. Qed.

(** Neither part of "12 - 15 March" has a year, and both go to the parser
    with the year 2023 appended. *)
Lemma year_appended_when_missing_witness :
  parts_of "12 - 15 March" = ["12"; "15 March"]
  /\ calls (parse_dates "12 - 15 March" "2023")
     = ["12 March 2023"; "15 March 2023"].
Proof.
  split; [vm_compute; reflexivity |].
  destruct (year_appended_when_missing "12 - 15 March" "2023" "12" "15 March")
    as (x1 & x2 & Hc & Hnone & _); [vm_compute; reflexivity |].
  destruct Hnone as [-> ->]; [vm_compute; reflexivity .. |].
  rewrite Hc. vm_compute. reflexivity.
Defined.

(** C3 does not hold as stated: the first part of "12 2023 - 15 March 2023"
    has a year, and still reaches the parser changed, with the month of the
    second part. *)
Lemma part_with_year_changed :
  parts_of "12 2023 - 15 March 2023" = ["12 2023"; "15 March 2023"]
  /\ Str.has_year "12 2023" = true
  /\ exists rest,
      calls (parse_dates "12 2023 - 15 March 2023" "2022")
      = "12 2023 March" :: rest.
Proof.
  split; [vm_compute; reflexivity |]. split; [vm_compute; reflexivity |].
  eexists. vm_compute. reflexivity.
Qed.

(** The first part of "12 - 15 March" has no month and receives "March". *)
Lemma month_copied_to_start_witness :
  copy_month "12" "15 March" = "12 March"
  /\ exists rest,
      calls (parse_dates "12 - 15 March" "2023") = "12 March 2023" :: rest.
Proof.
  apply (month_copied_to_start "12 - 15 March" "2023" "12" "15 March" "March");
    vm_compute; reflexivity.
Defined.

Lemma year_rollover_example_witness :
  parse_dates "30 Dec - 2 Jan" "2022"
  = (["30 Dec 2022"; "2 Jan 2022"],
     Returns (Some (Datetime.of_date 2022 12 30),
              Some (Datetime.of_date 2023 1 2)))
  /\ Datetime.ltb (Datetime.of_date 2022 1 2) (Datetime.of_date 2022 12 30)
     = true.
Proof. apply year_rollover_example; vm_compute; reflexivity. Defined.



(** "1 Mar - 29 Feb" in 2024: the end date is moved to 29 February 2025,
    which does not exist, and the failure pair comes out. *)
Lemma parse_dates_never_raises_witness :
  outcome (parse_attempt (normalise "1 Mar - 29 Feb") "2024") = Raises ValueError
  /\ outcome (parse_dates "1 Mar - 29 Feb" "2024") = Returns (None, None).
Proof.
  apply (proj2 (proj2 (parse_dates_never_raises "1 Mar - 29 Feb" "2024"))
           "1 Mar" "29 Feb" (Datetime.of_date 2024 3 1) (Datetime.of_date 2024 2 29));
    vm_compute; reflexivity.
Defined.

(** The sheet of 2023 has no [Date] column; the batch is made of the sheets
    of 2022 and 2024. *)
Lemma sheet_without_date_skipped_witness :
  process_dates "events.xlsx" "2023" = ret empty_frame
  /\ main "events.xlsx"
     = (dfs ← mapM (process_dates "events.xlsx") ["2022"; "2024"];
        ret (concat_frames dfs))
  /\ exists df_2022 df_2024 : frame,
      outcome (process_dates "events.xlsx" "2022") = Returns df_2022
      /\ outcome (process_dates "events.xlsx" "2024") = Returns df_2024
      /\ outcome (main "events.xlsx")
         = Returns (concat_frames [df_2022; df_2024]).
Proof.
  destruct (sheet_without_date_skipped "events.xlsx" "2023" Reference.calendar_2023)
    as [Hempty Hbatch]; [vm_compute; reflexivity .. |].
  destruct (Hbatch ["2022"] ["2024"] eq_refl) as [Hmain Hdfs].
  split; [exact Hempty |]. split; [exact Hmain |].
  destruct (outcome (process_dates "events.xlsx" "2022")) as [d22 | e] eqn:H22;
    [| vm_compute in H22; discriminate].
  destruct (outcome (process_dates "events.xlsx" "2024")) as [d24 | e] eqn:H24;
    [| vm_compute in H24; discriminate].
  exists d22, d24. split; [reflexivity |]. split; [reflexivity |].
  apply Hdfs. cbn [app mapM]. rewrite !outcome_bind, H22, outcome_bind.
  rewrite outcome_bind, H24. reflexivity.
Defined.

(** The one row of the sheet of 2023 holds no date: the sheet raises, and
    with it [main], after the sheet of 2022 was processed. *)
Lemma all_unparseable_sheet_raises_witness :
  outcome (@process_dates Samples.one_bad_sheet Reference.pandas
             "events.xlsx" "2023")
  = Raises AttributeError
  /\ outcome (@main Samples.one_bad_sheet Reference.pandas "events.xlsx")
     = Raises AttributeError.
Proof.
  destruct (@all_unparseable_sheet_raises Samples.one_bad_sheet Reference.pandas
              "events.xlsx" "2023" Samples.no_date_sheet)
    as [Hsheet Hmain].
  - vm_compute. reflexivity.
  - vm_compute. reflexivity.
  - discriminate.
  - repeat constructor. exists "not a date". split; vm_compute; reflexivity.
  - vm_compute. reflexivity.
  - split; [exact Hsheet |]. apply (Hmain ["2022"] ["2024"] eq_refl).
    repeat constructor.
    destruct (outcome (@process_dates Samples.one_bad_sheet Reference.pandas
                         "events.xlsx" "2022")) as [out | e] eqn:H22;
      [by exists out | vm_compute in H22; discriminate].
Defined.

End Instances.

(** * Further properties *)

(** ** The text steps *)

Module ShapeFacts.

Import Str Shape.

Local Open Scope string_scope.

Lemma lstrip_starts (s : string) :
  lstrip s = "" \/ starts_nonspace (lstrip s) = true.
Proof.
  induction s as [| c r IH]; [by left |]. cbn [lstrip].
  destruct (Char.isspace c) eqn:Hc; [done |]. right.
  cbn [starts_nonspace]. by rewrite Hc.
Qed.

Lemma rstrip_starts (s : string) :
  starts_nonspace s = true -> starts_nonspace (rstrip s) = true.
Proof.
  destruct s as [| c r]; [done |]. cbn [starts_nonspace rstrip].
  intros Hc. destruct (rstrip r); [| done].
  apply negb_true_iff in Hc. rewrite Hc. cbn [starts_nonspace].
  by rewrite Hc.
Qed.

Lemma rstrip_ends (s : string) :
  rstrip s = "" \/ ends_nonspace (rstrip s) = true.
Proof.
  induction s as [| c r IH]; [by left |]. cbn [rstrip].
  destruct (rstrip r) as [| c' r'] eqn:Hr.
  - destruct (Char.isspace c) eqn:Hc; [by left |]. right.
    cbn [ends_nonspace]. by rewrite Hc.
  - right. destruct IH as [IH | IH]; [done |]. exact IH.
Qed.

(** A stripped text is empty or has a character that is not whitespace at
    each end. *)
Lemma strip_ends (s : string) :
  strip s = ""
  \/ (starts_nonspace (strip s) = true /\ ends_nonspace (strip s) = true).
Proof.
  unfold strip. destruct (lstrip_starts s) as [-> | Hs]; [by left |].
  destruct (rstrip_ends (lstrip s)) as [He | He]; [by left |].
  right. split; [by apply rstrip_starts | done].
Qed.

Lemma collapse_tidy (b : bool) (s : string) :
  ends_nonspace s = true -> tidy_from b (collapse_from b s) = true.
Proof.
  revert b. induction s as [| c r IH]; intros b; [done |].
  cbn [ends_nonspace collapse_from]. intros He.
  destruct (Char.isspace c) eqn:Hc.
  - destruct r as [| c' r']; [done |].
    destruct b; [by apply IH |].
    cbn [tidy_from]. change (Char.isspace " ") with true. cbv iota.
    rewrite (IH true He). done.
  - cbn [tidy_from]. rewrite Hc.
    destruct r as [| c' r']; [done |]. by apply IH.
Qed.

Lemma tidy_from_lstrip (s : string) :
  tidy_from true s = true -> lstrip s = s.
Proof.
  destruct s as [| c r]; [done |]. cbn.
  destruct (Char.isspace c); [| done]. by rewrite andb_false_r.
Qed.

Lemma tidy_from_rstrip (b : bool) (s : string) :
  tidy_from b s = true -> rstrip s = s.
Proof.
  revert b. induction s as [| c r IH]; intros b; [done |].
  cbn [tidy_from rstrip].
  destruct (Char.isspace c) eqn:Hc.
  - intros [[_ _]%andb_true_iff Hr]%andb_true_iff.
    rewrite (IH _ Hr). by destruct r.
  - intros Hr. rewrite (IH _ Hr). by destruct r.
Qed.

Lemma tidy_from_collapse (b : bool) (s : string) :
  tidy_from b s = true -> collapse_from b s = s.
Proof.
  revert b. induction s as [| c r IH]; intros b; [done |].
  cbn [tidy_from collapse_from].
  destruct (Char.isspace c) eqn:Hc.
  - intros [[Hsp Hb]%andb_true_iff Hr]%andb_true_iff.
    apply negb_true_iff in Hb. subst b.
    apply Ascii.eqb_eq in Hsp. subst c. by rewrite (IH _ Hr).
  - intros Hr. by rewrite (IH _ Hr).
Qed.

Lemma tidy_fixed (s : string) : tidy s = true -> normalise s = s.
Proof.
  destruct s as [| c r]; [done |]. unfold tidy, normalise, strip. intros Ht.
  rewrite (tidy_from_lstrip _ Ht), (tidy_from_rstrip _ _ Ht).
  unfold collapse_spaces.
  assert (Char.isspace c = false) as Hc.
  { cbn in Ht. destruct (Char.isspace c); [| done].
    by rewrite andb_false_r in Ht. }
  cbn [collapse_from tidy_from] in *. rewrite Hc in *.
  by rewrite (tidy_from_collapse _ _ Ht).
Qed.

Lemma normalise_is_tidy (s : string) : tidy (normalise s) = true.
Proof.
  unfold normalise, collapse_spaces.
  destruct (strip_ends s) as [-> | [Hs He]]; [done |].
  destruct (strip s) as [| c r]; [done |].
  cbn [starts_nonspace] in Hs. apply negb_true_iff in Hs.
  cbn [collapse_from]. rewrite Hs. cbn [tidy tidy_from]. rewrite Hs.
  destruct r as [| c' r']; [done |]. by apply collapse_tidy.
Qed.

End ShapeFacts.

(** X1.  After line 27 every whitespace character of the text is a single
    space standing between two other characters: none leads, none trails,
    and no two are adjacent. *)
Theorem normalise_tidy (s : string) : Shape.tidy (normalise s) = true.
Proof.
  unfold normalise, Str.collapse_spaces.
  destruct (ShapeFacts.strip_ends s) as [-> | [Hs He]]; [done |].
  destruct (Str.strip s) as [| c r]; [done |].
  cbn [Shape.starts_nonspace] in Hs. apply negb_true_iff in Hs.
  cbn [Str.collapse_from]. rewrite Hs. cbn [Shape.tidy Shape.tidy_from].
  rewrite Hs. destruct r as [| c' r']; [done |].
  by apply ShapeFacts.collapse_tidy.
Qed.

(** X2.  Normalising is idempotent, so [parse_dates] gives on a text and on
    its normalised form the same calls and the same result. *)
Theorem normalise_idempotent {libs : Libraries} (s y : string) :
  normalise (normalise s) = normalise s
  /\ parse_dates (normalise s) y = parse_dates s y.
Proof.
  assert (normalise (normalise s) = normalise s) as H
    by apply ShapeFacts.tidy_fixed, ShapeFacts.normalise_is_tidy.
  split; [done |]. unfold parse_dates. cbv zeta. by rewrite H.
Qed.

Module SplitFacts.

Import Str Shape.

Local Open Scope string_scope.

Lemma drop_add (a b : nat) (s : string) : drop (a + b) s = drop b (drop a s).
Proof.
  revert s. induction a as [| a IH]; intros s; [done |].
  destruct s as [| c r]; cbn [Nat.add drop]; [by destruct b | apply IH].
Qed.

Lemma isspace_not_hyphen (c : ascii) :
  Char.isspace c = true -> Ascii.eqb c "-" = false.
Proof.
  destruct (Ascii.eqb_spec c "-") as [-> |]; [| done]. by vm_compute.
Qed.

Lemma count_hyphens_skip_spaces (s : string) :
  count_hyphens (drop (count_spaces s) s) = count_hyphens s.
Proof.
  induction s as [| c r IH]; [done |]. cbn [count_spaces].
  destruct (Char.isspace c) eqn:Hc; [| done].
  cbn [drop count_hyphens]. by rewrite (isspace_not_hyphen _ Hc).
Qed.

Lemma count_spaces_le (s : string) : (count_spaces s <= String.length s)%nat.
Proof.
  induction s as [| c r IH]; cbn; [lia |]. destruct (Char.isspace c); cbn; lia.
Qed.

Lemma length_drop (k : nat) (s : string) :
  String.length (drop k s) = (String.length s - k)%nat.
Proof.
  revert s. induction k as [| k IH]; intros [| c r]; cbn; try done; lia.
Qed.

(** A separator holds exactly one hyphen. *)
Lemma separator_at_Some (s : string) (n : nat) :
  separator_at s = Some n ->
  (1 <= n <= String.length s)%nat
  /\ count_hyphens s = S (count_hyphens (drop n s)).
Proof.
  unfold separator_at.
  pose proof (count_spaces_le s) as Hk.
  pose proof (length_drop (count_spaces s) s) as Hl.
  pose proof (count_hyphens_skip_spaces s) as Hh.
  destruct (drop (count_spaces s) s) as [| c r] eqn:Hd; [done |].
  destruct (Ascii.eqb c "-") eqn:Hc; [| done]. intros [= <-].
  pose proof (count_spaces_le r) as Hr. cbn [String.length] in Hl.
  split; [lia |].
  rewrite <- Hh. cbn [count_hyphens]. rewrite Hc. f_equal.
  rewrite <- Nat.add_assoc, drop_add, Hd. cbn [Nat.add drop].
  by rewrite count_hyphens_skip_spaces.
Qed.

Lemma separator_at_None (c : ascii) (r : string) :
  separator_at (String c r) = None -> Ascii.eqb c "-" = false.
Proof.
  unfold separator_at. cbn [count_spaces].
  destruct (Char.isspace c) eqn:Hc; [intros _; by apply isspace_not_hyphen |].
  cbn [drop]. by destruct (Ascii.eqb c "-").
Qed.

Lemma length_split_from (k : nat) (piece s : string) :
  (k <= String.length s)%nat ->
  List.length (split_from k piece s) = S (count_hyphens (drop k s)).
Proof.
  revert k piece. induction s as [| c r IH]; intros k piece Hk.
  - cbn in Hk. by replace k with O by lia.
  - cbn [split_from]. destruct k as [| k].
    + cbn [drop]. destruct (separator_at (String c r)) as [n |] eqn:Hs.
      * apply separator_at_Some in Hs as [Hn ->]. cbn [String.length] in Hn.
        destruct n as [| n]; [lia |].
        cbn [List.length drop]. rewrite IH by lia.
        by replace (S n - 1)%nat with n by lia.
      * rewrite IH by lia. cbn [drop count_hyphens].
        by rewrite (separator_at_None _ _ Hs).
    + cbn [drop]. apply IH. cbn in Hk. lia.
Qed.

Lemma has_hyphen_append (a b : string) :
  has_hyphen (a ++ b) = has_hyphen a || has_hyphen b.
Proof.
  induction a as [| c a IH]; [done |].
  rewrite StrFacts.append_cons. cbn [has_hyphen]. by rewrite IH, orb_assoc.
Qed.

(** No piece holds a hyphen. *)
Lemma split_from_no_hyphen_pieces (k : nat) (piece s : string) :
  has_hyphen piece = false ->
  Forall (fun p => has_hyphen p = false) (split_from k piece s).
Proof.
  revert k piece. induction s as [| c r IH]; intros k piece Hp.
  - by constructor.
  - cbn [split_from]. destruct k as [| k]; [| by apply IH].
    destruct (separator_at (String c r)) as [n |] eqn:Hs.
    + constructor; [done |]. by apply IH.
    + apply IH. rewrite has_hyphen_append, Hp. cbn.
      by rewrite (separator_at_None _ _ Hs).
Qed.

Lemma has_hyphen_lstrip (s : string) :
  has_hyphen s = false -> has_hyphen (lstrip s) = false.
Proof.
  induction s as [| c r IH]; [done |]. cbn [lstrip].
  destruct (Char.isspace c); [| done].
  cbn. intros [_ H]%orb_false_iff. by apply IH.
Qed.

Lemma has_hyphen_rstrip (s : string) :
  has_hyphen s = false -> has_hyphen (rstrip s) = false.
Proof.
  induction s as [| c r IH]; [done |]. cbn [has_hyphen rstrip].
  intros [Hc Hr]%orb_false_iff. specialize (IH Hr).
  destruct (rstrip r); [destruct (Char.isspace c) |]; cbn [has_hyphen] in *;
    by rewrite ?Hc, ?IH.
Qed.

End SplitFacts.

(** X3.  [re.split] gives one piece more than the text has hyphens, empty
    pieces included: each separator holds exactly one hyphen. *)
Theorem split_hyphen_length (s : string) :
  List.length (Str.split_hyphen s) = S (Shape.count_hyphens s).
Proof.
  unfold Str.split_hyphen. rewrite SplitFacts.length_split_from by lia. done.
Qed.

(** X4.  Every part kept by lines 37 to 40 is non-empty, has a character
    that is not whitespace at each end, and holds no hyphen. *)
Theorem parts_are_clean (s p : string) :
  p ∈ parts_of s ->
  p <> EmptyString
  /\ Shape.starts_nonspace p = true
  /\ Shape.ends_nonspace p = true
  /\ Str.has_hyphen p = false.
Proof.
  unfold parts_of, Str.clean_parts. intros Hin.
  apply list_elem_of_In, in_map_iff in Hin as (q & <- & Hq).
  apply filter_In in Hq as [Hq Hne].
  assert (Str.has_hyphen (Str.strip q) = false) as Hh.
  { unfold Str.strip.
    apply SplitFacts.has_hyphen_rstrip, SplitFacts.has_hyphen_lstrip.
    pose proof (SplitFacts.split_from_no_hyphen_pieces O EmptyString
                  (normalise s) eq_refl) as Hall.
    rewrite Forall_forall in Hall. apply Hall. by apply list_elem_of_In. }
  destruct (ShapeFacts.strip_ends q) as [He | [Hs He]].
  - by rewrite He in Hne.
  - repeat split; try done. intros Hp. by rewrite Hp in Hs.
Qed.

Module MonthFacts.

Import Str Shape.

Local Open Scope string_scope.

Lemma lowercase_append (a b : string) :
  lowercase (a ++ b) = lowercase a ++ lowercase b.
Proof.
  induction a as [| c a IH]; [done |].
  rewrite StrFacts.append_cons. cbn [lowercase].
  by rewrite IH, StrFacts.append_cons.
Qed.

Lemma prefix_ci_lowercase (p s : string) :
  prefix_ci p s = true -> lowercase (take (String.length p) s) = lowercase p.
Proof.
  revert s. induction p as [| a p IH]; intros [| b s]; cbn; try done.
  intros [Hab Hp]%andb_true_iff. unfold Char.eq_ci in Hab.
  apply Ascii.eqb_eq in Hab. by rewrite Hab, IH.
Qed.

Lemma take_drop (k : nat) (s : string) : take k s ++ drop k s = s.
Proof.
  revert s. induction k as [| k IH]; intros [| c r]; cbn [take drop]; try done.
  by rewrite StrFacts.append_cons, IH.
Qed.

Lemma alternative_at_spelling (stem rest s m : string) :
  alternative_at (stem, rest) s = Some m ->
  (lowercase m = lowercase stem \/ lowercase m = lowercase (stem ++ rest))
  /\ exists post, s = m ++ post.
Proof.
  cbn. destruct (prefix_ci stem s) eqn:H1; [| done].
  destruct (prefix_ci rest _) eqn:H2; intros [= <-].
  - split; [| eexists; symmetry; apply take_drop]. right.
    rewrite StrFacts.take_add, !lowercase_append.
    by rewrite (prefix_ci_lowercase _ _ H1), (prefix_ci_lowercase _ _ H2).
  - split; [| eexists; symmetry; apply take_drop]. left.
    by apply prefix_ci_lowercase.
Qed.

Lemma first_alternative_spelling (alts : list (string * string)) (s m : string) :
  first_alternative alts s = Some m ->
  (exists stem rest,
      (stem, rest) ∈ alts
      /\ (lowercase m = lowercase stem \/ lowercase m = lowercase (stem ++ rest)))
  /\ exists post, s = m ++ post.
Proof.
  induction alts as [| [stem rest] alts IH]; cbn [first_alternative]; [done |].
  destruct (alternative_at (stem, rest) s) as [m' |] eqn:Ha.
  - intros [= <-]. apply alternative_at_spelling in Ha as [Hl Hp].
    split; [| done]. exists stem, rest. split; [by left | done].
  - intros H. apply IH in H as [(st & re & Hin & Hl) Hp].
    split; [| done]. exists st, re. split; [by right | done].
Qed.

Lemma months_table_names (stem rest : string) :
  (stem, rest) ∈ months_table ->
  lowercase stem ∈ month_names /\ lowercase (stem ++ rest) ∈ month_names.
Proof.
  unfold months_table. intros Hin.
  repeat (apply elem_of_cons in Hin as [[= -> ->] | Hin];
          [vm_compute; split; apply list_elem_of_In; cbn; tauto |]).
  by apply elem_of_nil in Hin.
Qed.

End MonthFacts.

(** X5.  The month token that the search returns is a piece of the text
    searched, and up to the case of its letters it is one of the month names
    or three-letter abbreviations. *)
Theorem month_token_is_a_name (s m : string) :
  Str.search_month s = Some m ->
  Shape.lowercase m ∈ Shape.month_names
  /\ exists before after, s = (before ++ m ++ after)%string.
Proof.
  assert (forall t, Str.first_alternative Str.months_table t = Some m ->
                    Shape.lowercase m ∈ Shape.month_names
                    /\ exists after, t = (m ++ after)%string) as Hhere.
  { intros t H.
    apply MonthFacts.first_alternative_spelling in H
      as [(stem & rest & Hin & Hl) Hp].
    apply MonthFacts.months_table_names in Hin as [H1 H2].
    split; [by destruct Hl as [-> | ->] | done]. }
  induction s as [| c r IH]; cbn [Str.search_month];
    destruct (Str.first_alternative Str.months_table _) as [m' |] eqn:H;
    try done.
  - intros Hm. simplify_eq. destruct (Hhere _ H) as [Hn [after Ha]].
    split; [done |]. exists EmptyString, after. by rewrite Ha.
  - intros Hr. destruct (IH Hr) as [Hn (before & after & ->)].
    split; [done |]. by exists (String c before), after.
Qed.

(** X6.  The month copied onto the first part never changes the outcome of
    the year test on it: the first part receives the context year exactly
    when the part as split has no year. *)
Theorem year_test_ignores_copied_month (a b y : string) :
  Str.has_year (copy_month a b) = Str.has_year a
  /\ append_year (copy_month a b) y
     = if Str.has_year a then copy_month a b
       else (copy_month a b ++ " " ++ y)%string.
Proof.
  pose proof (has_year_copy_month a b) as H. split; [done |].
  unfold append_year. by rewrite H.
Qed.

(** ** The branches of the parser *)

Section Branches.

Context {libs : Libraries}.

Local Open Scope string_scope.

(** X7.  A text without hyphen goes to the parser once, with the context
    year appended when the year test finds none, and the date parsed is
    both the start and the end; a failure of the parser or a date out of the
    timestamp bounds gives the failure pair. *)
Theorem single_date_start_is_end (s y : string) :
  Str.has_hyphen (normalise s) = false ->
  calls (parse_dates s y) = [append_year (normalise s) y]
  /\ outcome (parse_dates s y)
     = Returns match dateparser_parse (append_year (normalise s) y) with
               | Returns (Some t) =>
                   if timestamp_in_bounds t then (Some t, Some t)
                   else (None, None)
               | _ => (None, None)
               end.
Proof.
  intros Hh. pose proof (parse_body_single _ y Hh) as Hb. split.
  - rewrite calls_parse_dates, Hb. run. by destruct (dateparser_parse _).
  - unfold parse_dates. cbv zeta. by apply outcome_one_date.
Qed.

(** X8.  A text without hyphen in which the year test finds a year is
    parsed as it stands, and no context year has any effect on the calls or
    on the result. *)
Theorem single_date_with_year (s y1 y2 : string) :
  Str.has_hyphen (normalise s) = false ->
  Str.has_year (normalise s) = true ->
  calls (parse_dates s y1) = [normalise s]
  /\ parse_dates s y1 = parse_dates s y2.
Proof.
  intros Hh Hy.
  assert (forall y, parse_body (normalise s) y
                    = (r ← parse_call (normalise s); ret (r, r))) as Hb.
  { intros y. rewrite (parse_body_single _ y Hh). unfold append_year.
    by rewrite Hy. }
  split.
  - rewrite calls_parse_dates, Hb. run. by destruct (dateparser_parse _).
  - unfold parse_dates, parse_attempt. cbv zeta. by rewrite !Hb.
Qed.

(** X9.  A text with a hyphen that leaves fewer than two parts, such as a
    date followed by a dangling hyphen, goes to the parser whole, hyphen
    included and without the context year, which then has no effect. *)
Theorem dangling_hyphen_whole_text (s y1 y2 : string) :
  Str.has_hyphen (normalise s) = true ->
  (List.length (parts_of s) < 2)%nat ->
  calls (parse_dates s y1) = [normalise s]
  /\ parse_dates s y1 = parse_dates s y2.
Proof.
  intros Hh Hl.
  assert (forall y, parse_body (normalise s) y
                    = (r ← parse_call (normalise s); ret (r, r))) as Hb.
  { intros y. apply parse_body_whole; [done |]. unfold parts_of in Hl. lia. }
  split.
  - rewrite calls_parse_dates, Hb. run. by destruct (dateparser_parse _).
  - unfold parse_dates, parse_attempt. cbv zeta. by rewrite !Hb.
Qed.

(** X10.  When a range of two parts comes out with two dates, the start date
    is the date the parser gave for the first text, and the end date is the
    date it gave for the second text, moved one year on exactly when that
    date was before the start date; both are within the timestamp bounds. *)
Theorem range_dates_from_parser (s y a b : string) (sd ed : datetime) :
  parts_of s = [a; b] ->
  outcome (parse_dates s y) = Returns (Some sd, Some ed) ->
  dateparser_parse (append_year (copy_month a b) y) = Returns (Some sd)
  /\ exists parsed_end,
      dateparser_parse (append_year b y) = Returns (Some parsed_end)
      /\ ed = (if Datetime.ltb parsed_end sd
               then Datetime.with_year parsed_end (Datetime.year parsed_end + 1)
               else parsed_end)
      /\ timestamp_in_bounds sd = true
      /\ timestamp_in_bounds ed = true.
Proof.
  intros Hp. rewrite outcome_parse_dates, (outcome_range_any s y a b Hp).
  destruct (dateparser_parse (append_year (copy_month a b) y))
    as [[da |] |]; try done;
    destruct (dateparser_parse (append_year b y)) as [[db |] |]; try done.
  destruct (timestamp_in_bounds da) eqn:B1.
  - destruct (Datetime.ltb db da) eqn:Hlt; cbv zeta;
      [destruct (Datetime.check_date_fields _ _ _); [| done];
       destruct (timestamp_in_bounds (Datetime.with_year db _)) eqn:B2
      | destruct (timestamp_in_bounds db) eqn:B2];
      cbn [andb]; try done;
      intros ?; simplify_eq; split; try done;
      refine (ex_intro _ _ (conj eq_refl _)); by rewrite Hlt.
  - destruct (Datetime.ltb db da); cbv zeta;
      [destruct (Datetime.check_date_fields _ _ _); [| done] |]; done.
Qed.

End Branches.

(** X11.  Moving a date one year on, as line 74 does, fails with a
    [ValueError] exactly on a 29 February and in the year 9999; on any other
    date it returns the same month, day and time in the next year. *)
Theorem rollover_fails_exactly (ed : datetime) :
  Datetime.check_date_fields (Datetime.year ed) (Datetime.month ed)
    (Datetime.day ed) = true ->
  outcome (replace_year ed (Datetime.year ed + 1))
  = if (Datetime.year ed =? 9999)%Z
       || ((Datetime.month ed =? 2)%Z && (Datetime.day ed =? 29)%Z)
    then Raises ValueError
    else Returns (Datetime.with_year ed (Datetime.year ed + 1)).
Proof.
  rewrite outcome_replace_year. destruct ed as [y m d h mi sec us].
  cbn [Datetime.year Datetime.month Datetime.day].
  unfold Datetime.check_date_fields. intros Hv.
  repeat (apply andb_true_iff in Hv as [Hv ?]).
  assert (m = 1 \/ m = 2 \/ m = 3 \/ m = 4 \/ m = 5 \/ m = 6 \/ m = 7 \/ m = 8
          \/ m = 9 \/ m = 10 \/ m = 11 \/ m = 12)%Z as Hm by lia.
  assert (Datetime.is_leap y = true -> Datetime.is_leap (y + 1) = false) as Hleap.
  { unfold Datetime.is_leap. intros [H4 _]%andb_true_iff.
    apply Z.eqb_eq in H4. apply andb_false_iff. left. apply Z.eqb_neq.
    Z.div_mod_to_equations. lia. }
  unfold Datetime.days_in_month in *.
  destruct (Datetime.is_leap y) eqn:Ly;
    [rewrite (Hleap eq_refl) | destruct (Datetime.is_leap (y + 1))];
    repeat (destruct Hm as [-> | Hm]); subst; cbn in *;
    repeat case_match; try done; lia.
Qed.

(** ** Frames and the batch *)

Module FrameFacts.

Lemma elem_of_add_column (c name : string) (cols : list string) :
  c ∈ add_column name cols <-> c = name \/ c ∈ cols.
Proof.
  unfold add_column. case_bool_decide as Hin.
  - split; [by right | intros [-> | H]; done].
  - rewrite elem_of_app, list_elem_of_singleton. tauto.
Qed.

Lemma NoDup_add_column (name : string) (cols : list string) :
  NoDup cols -> NoDup (add_column name cols).
Proof.
  unfold add_column. intros Hn. case_bool_decide as Hin; [done |].
  apply NoDup_app. split; [done |]. split; [| apply NoDup_singleton].
  intros x Hx ->%list_elem_of_singleton. done.
Qed.

Lemma prefix_add_column (name : string) (cols : list string) :
  cols `prefix_of` add_column name cols.
Proof.
  unfold add_column. case_bool_decide; [done |]. by apply prefix_app_r.
Qed.

Lemma elem_of_add_columns (c : string) (acc cols : list string) :
  c ∈ foldl (fun acc x => add_column x acc) acc cols <-> c ∈ acc \/ c ∈ cols.
Proof.
  revert acc. induction cols as [| x cols IH]; intros acc; cbn [foldl].
  - rewrite elem_of_nil. tauto.
  - rewrite IH, elem_of_add_column, elem_of_cons. tauto.
Qed.

Lemma NoDup_add_columns (acc cols : list string) :
  NoDup acc -> NoDup (foldl (fun acc x => add_column x acc) acc cols).
Proof.
  revert acc. induction cols as [| x cols IH]; intros acc Hn; [done |].
  cbn [foldl]. by apply IH, NoDup_add_column.
Qed.

(** Labels that are all there already add nothing. *)
Lemma add_columns_known (acc cols : list string) :
  Forall (fun c => c ∈ acc) cols ->
  foldl (fun acc x => add_column x acc) acc cols = acc.
Proof.
  induction 1 as [| x cols Hx _ IH]; [done |]. cbn [foldl].
  unfold add_column at 2. by rewrite bool_decide_eq_true_2.
Qed.

(** Distinct labels added to no label come out as they are. *)
Lemma add_columns_fresh (acc cols : list string) :
  NoDup (acc ++ cols) ->
  foldl (fun acc x => add_column x acc) acc cols = acc ++ cols.
Proof.
  revert acc. induction cols as [| x cols IH]; intros acc Hn; cbn [foldl].
  - by rewrite app_nil_r.
  - assert (x ∉ acc) as Hx.
    { apply NoDup_app in Hn as (_ & Hd & _). intros Hin.
      apply (Hd x Hin). by left. }
    unfold add_column at 2. rewrite bool_decide_eq_false_2 by done.
    rewrite IH; rewrite <- app_assoc; done.
Qed.

Local Abbreviation all_columns frames acc :=
  (foldl (fun cols df => foldl (fun acc c => add_column c acc) cols (columns df))
         acc frames).

Lemma NoDup_all_columns (frames : list frame) (acc : list string) :
  NoDup acc -> NoDup (all_columns frames acc).
Proof.
  revert acc. induction frames as [| df frames IH]; intros acc Hn; [done |].
  cbn [foldl]. by apply IH, NoDup_add_columns.
Qed.

Lemma elem_of_all_columns (c : string) (frames : list frame) (acc : list string) :
  c ∈ all_columns frames acc
  <-> c ∈ acc \/ exists df, df ∈ frames /\ c ∈ columns df.
Proof.
  revert acc. induction frames as [| df frames IH]; intros acc.
  - cbn. split; [by left | intros [H | (df & H & _)]; [done |]].
    by apply elem_of_nil in H.
  - cbn [foldl]. rewrite IH, elem_of_add_columns. split.
    + intros [[H | H] | (df' & Hin & H)]; [by left | right | right].
      * exists df. split; [by left | done].
      * exists df'. split; [by right | done].
    + intros [H | (df' & Hin & H)]; [by left; left |].
      apply elem_of_cons in Hin as [-> | Hin]; [by left; right |].
      right. by exists df'.
Qed.

Lemma length_omap_le {A B} (f : A -> option B) (l : list A) :
  (List.length (omap f l) <= List.length l)%nat.
Proof.
  induction l as [| a l IH]; cbn; [lia |]. destruct (f a); cbn; lia.
Qed.

End FrameFacts.

Section Batch.

Context {libs : Libraries} {pandas : Pandas}.

Local Open Scope string_scope.

(** X12.  A sheet that the reader fails on, with [FileNotFoundError] or any
    other exception, comes out of [process_dates] as the empty frame, with no
    date parsed.  When it is one of the three sheets of [main], [main] is
    what processing the other sheets in turn and concatenating their frames
    is. *)
Theorem unreadable_sheet_skipped (filepath sheet_name : string) (e : exn) :
  read_excel filepath sheet_name = Raises e ->
  process_dates filepath sheet_name = ret empty_frame
  /\ forall before after : list string,
      ["2022"; "2023"; "2024"] = (before ++ sheet_name :: after)%list ->
      main filepath
      = (dfs ← mapM (process_dates filepath) (before ++ after);
         ret (concat_frames dfs))
      /\ forall dfs : list frame,
          outcome (mapM (process_dates filepath) (before ++ after)) = Returns dfs ->
          outcome (main filepath) = Returns (concat_frames dfs).
Proof.
  intros Hr.
  pose proof (process_dates_unreadable _ _ _ Hr) as Hempty.
  split; [done |]. intros before after Hsheets.
  pose proof (empty_sheet_skipped _ _ Hempty before after Hsheets) as Hmain.
  split; [done |]. intros dfs Hdfs. rewrite Hmain. run. by rewrite Hdfs.
Qed.

(** When [main] returns, each sheet gave a frame. *)
Lemma main_returns_inv (filepath : string) (batch : frame) :
  outcome (main filepath) = Returns batch ->
  exists df_2022 df_2023 df_2024,
    outcome (process_dates filepath "2022") = Returns df_2022
    /\ outcome (process_dates filepath "2023") = Returns df_2023
    /\ outcome (process_dates filepath "2024") = Returns df_2024
    /\ batch = concat_frames [df_2022; df_2023; df_2024].
Proof.
  unfold main. run.
  destruct (outcome (process_dates filepath "2022")) as [d22 |]; [| done]. run.
  destruct (outcome (process_dates filepath "2023")) as [d23 |]; [| done]. run.
  destruct (outcome (process_dates filepath "2024")) as [d24 |]; [| done]. run.
  intros [= <-]. by exists d22, d23, d24.
Qed.

(** X13.  [main] returns a batch exactly when each of the three sheets gives
    a frame: the batch then has their rows in the order 2022, 2023, 2024,
    and for columns exactly the labels of the three frames, each once.  When
    a sheet raises and the sheets before it gave frames, [main] raises the
    same exception and builds no batch. *)
Theorem main_batch_or_first_exception (filepath : string) :
  (forall df_2022 df_2023 df_2024,
      outcome (process_dates filepath "2022") = Returns df_2022 ->
      outcome (process_dates filepath "2023") = Returns df_2023 ->
      outcome (process_dates filepath "2024") = Returns df_2024 ->
      exists batch,
        outcome (main filepath) = Returns batch
        /\ rows batch = (rows df_2022 ++ rows df_2023 ++ rows df_2024)%list
        /\ NoDup (columns batch)
        /\ forall c,
            c ∈ columns batch
            <-> c ∈ columns df_2022 \/ c ∈ columns df_2023
                \/ c ∈ columns df_2024)
  /\ (forall batch,
         outcome (main filepath) = Returns batch ->
         exists df_2022 df_2023 df_2024,
           outcome (process_dates filepath "2022") = Returns df_2022
           /\ outcome (process_dates filepath "2023") = Returns df_2023
           /\ outcome (process_dates filepath "2024") = Returns df_2024
           /\ batch = concat_frames [df_2022; df_2023; df_2024])
  /\ (forall (before after : list string) (sheet_name : string) (e : exn),
         ["2022"; "2023"; "2024"] = (before ++ sheet_name :: after)%list ->
         Forall (fun name =>
                   exists out, outcome (process_dates filepath name) = Returns out)
                before ->
         outcome (process_dates filepath sheet_name) = Raises e ->
         outcome (main filepath) = Raises e).
Proof.
  split; [| split].
  - intros d22 d23 d24 H22 H23 H24.
    exists (concat_frames [d22; d23; d24]).
    repeat split.
    + by apply outcome_main.
    + cbn. by rewrite app_nil_r.
    + apply FrameFacts.NoDup_all_columns, NoDup_nil_2.
    + cbn [concat_frames columns]. rewrite FrameFacts.elem_of_all_columns.
      intros [H | (df & Hin & H)]; [by apply elem_of_nil in H |].
      repeat (apply elem_of_cons in Hin as [-> | Hin]; [tauto |]).
      by apply elem_of_nil in Hin.
    + cbn [concat_frames columns]. rewrite FrameFacts.elem_of_all_columns.
      intros [H | [H | H]]; right; eexists; (split; [| exact H]);
        repeat first [apply list_elem_of_here | apply list_elem_of_further].
  - apply main_returns_inv.
  - intros before after sheet_name e Hsheets Hbefore He.
    by apply (main_raises _ _ _ _ _ Hsheets Hbefore).
Qed.

(** When [process_dates] returns on a sheet with a [Date] column, the sheet
    has rows, their date texts are strings, the two date columns are
    datetime columns, and the frame returned is the one expected. *)
Lemma process_dates_returns_inv (filepath sheet_name : string) (df out : frame) :
  read_excel filepath sheet_name = Returns df ->
  has_column "Date" df = true ->
  outcome (process_dates filepath sheet_name) = Returns out ->
  rows df <> []
  /\ Forall is_Some (date_text df <$> rows df)
  /\ out = Frame (add_column "End Date" (add_column "Start Date" (columns df)))
                 (omap (expected_row sheet_name df) (rows df)).
Proof.
  intros Hr Hc Hout.
  destruct (decide (Forall is_Some (date_text df <$> rows df))) as [Hall | Hgap];
    [| by rewrite (outcome_process_dates_gap _ _ _ Hr Hc Hgap) in Hout].
  destruct (decide (rows df = [])) as [Hrows | Hrows];
    [by rewrite (outcome_process_dates_no_row _ _ _ Hr Hc Hrows) in Hout |].
  rewrite (outcome_process_dates _ _ _ Hr Hc Hrows Hall) in Hout.
  cbv zeta in Hout. destruct (_ && _); by simplify_eq.
Qed.

(** X14.  When [process_dates] returns on a sheet with a [Date] column, it
    has added no row and invented none: every row of the output comes from a
    row of the sheet, with the same value under every column other than
    [Date], [Start Date] and [End Date], and the date text of that row as a
    string under [Date].  The columns of the sheet come first in the output,
    which also has the two date columns. *)
Theorem other_columns_untouched (filepath sheet_name : string) (df out : frame) :
  read_excel filepath sheet_name = Returns df ->
  has_column "Date" df = true ->
  outcome (process_dates filepath sheet_name) = Returns out ->
  (List.length (rows out) <= List.length (rows df))%nat
  /\ Forall (fun out_row =>
               exists row text,
                 row ∈ rows df
                 /\ date_text df row = Some text
                 /\ out_row !! "Date" = Some (CText text)
                 /\ forall k,
                     k ∉ ["Date"; "Start Date"; "End Date"] ->
                     out_row !! k = row !! k)
            (rows out)
  /\ columns df `prefix_of` columns out
  /\ "Start Date" ∈ columns out
  /\ "End Date" ∈ columns out.
Proof.
  intros Hr Hc Hout.
  destruct (process_dates_returns_inv _ _ _ _ Hr Hc Hout) as (_ & _ & ->).
  cbn [rows columns]. split; [apply FrameFacts.length_omap_le |]. split.
  - apply Forall_forall. intros out_row Hin.
    apply list_elem_of_omap in Hin as (row & Hrow & Hexp).
    unfold expected_row in Hexp.
    destruct (date_text df row) as [text |] eqn:Ht; [| done].
    exists row, text. split; [done |]. split; [done |].
    destruct (parsed_range _ sheet_name) as [[sd |] [ed |]]; simplify_eq.
    split; [rewrite !lookup_insert_ne by done; apply lookup_insert_eq |].
    intros k Hk. rewrite !lookup_insert_ne; [done | ..];
      intros <-; apply Hk;
      repeat first [apply list_elem_of_here | apply list_elem_of_further].
  - split; [| split].
    + etrans; apply FrameFacts.prefix_add_column.
    + rewrite !FrameFacts.elem_of_add_column. auto.
    + rewrite !FrameFacts.elem_of_add_column. auto.
Qed.

(** X15.  When the three sheets are read, each has a [Date] column, and
    [main] returns a batch, the batch holds, sheet after sheet, the rows on
    which the parser gave dates, each date text parsed with the name of its
    own sheet as context year. *)
Theorem batch_uses_sheet_names (filepath : string) (s22 s23 s24 batch : frame) :
  read_excel filepath "2022" = Returns s22 ->
  read_excel filepath "2023" = Returns s23 ->
  read_excel filepath "2024" = Returns s24 ->
  has_column "Date" s22 = true ->
  has_column "Date" s23 = true ->
  has_column "Date" s24 = true ->
  outcome (main filepath) = Returns batch ->
  rows batch
  = (omap (expected_row "2022" s22) (rows s22)
     ++ omap (expected_row "2023" s23) (rows s23)
     ++ omap (expected_row "2024" s24) (rows s24))%list.
Proof.
  intros R22 R23 R24 C22 C23 C24 Hmain.
  apply main_returns_inv in Hmain as (d22 & d23 & d24 & H22 & H23 & H24 & ->).
  destruct (process_dates_returns_inv _ _ _ _ R22 C22 H22) as (_ & _ & ->).
  destruct (process_dates_returns_inv _ _ _ _ R23 C23 H23) as (_ & _ & ->).
  destruct (process_dates_returns_inv _ _ _ _ R24 C24 H24) as (_ & _ & ->).
  cbn. by rewrite app_nil_r.
Qed.

(** X22.  When [process_dates] returns on a sheet with a [Date] column, the
    frame has the rows of the sheet in order, without those on which
    [parse_dates] returned no dates and with all the others; each row kept
    holds, under [Start Date] and [End Date], the two dates written as
    [YYYY-MM-DD]. *)
Theorem returned_rows_parsed_and_formatted (filepath sheet_name : string)
    (df out : frame) :
  read_excel filepath sheet_name = Returns df ->
  has_column "Date" df = true ->
  outcome (process_dates filepath sheet_name) = Returns out ->
  rows out = omap (expected_row sheet_name df) (rows df)
  /\ Forall (fun row =>
               exists text,
                 date_text df row = Some text
                 /\ (expected_row sheet_name df row = None
                     <-> parsed_range text sheet_name = (None, None)))
            (rows df)
  /\ Forall (fun row =>
               exists start_text end_text,
                 row !! "Start Date" = Some (CText start_text)
                 /\ row !! "End Date" = Some (CText end_text)
                 /\ Datetime.is_ymd start_text = true
                 /\ Datetime.is_ymd end_text = true)
            (rows out).
Proof.
  intros Hr Hc Hout.
  destruct (process_dates_returns_inv _ _ _ _ Hr Hc Hout) as (_ & Hall & ->).
  cbn [rows]. split; [done |]. split.
  - apply Forall_date_text in Hall. eapply Forall_impl; [exact Hall |].
    intros row [text Ht]. exists text. split; [done |].
    unfold expected_row, parsed_range. rewrite Ht.
    destruct (parse_dates_all_or_nothing text sheet_name)
      as (sd & ed & -> & Hboth).
    destruct Hboth as [H1 H2].
    destruct sd as [sd |], ed as [ed |]; split; intros ?; try done;
      first [by specialize (H1 eq_refl) | by specialize (H2 eq_refl)].
  - apply Forall_forall. intros out_row Hin.
    apply list_elem_of_omap in Hin as (row & _ & Hrow).
    unfold expected_row in Hrow.
    destruct (date_text df row) as [text |]; [| done].
    destruct (parsed_range _ sheet_name) as [[sd |] [ed |]]; simplify_eq.
    exists (Datetime.strftime_ymd sd), (Datetime.strftime_ymd ed).
    rewrite lookup_insert_ne, !lookup_insert_eq by done.
    by rewrite !is_ymd_strftime.
Qed.

(** X23.  On a sheet with a [Date] column and no row, line 136 raises
    [ValueError] before any date is parsed: [process_dates] returns no
    frame, and [main], reaching this sheet, raises it too. *)
Theorem sheet_without_rows_raises (filepath sheet_name : string) (df : frame) :
  read_excel filepath sheet_name = Returns df ->
  has_column "Date" df = true ->
  rows df = [] ->
  process_dates filepath sheet_name = raise ValueError
  /\ forall before after : list string,
      ["2022"; "2023"; "2024"] = (before ++ sheet_name :: after)%list ->
      Forall (fun name =>
                exists out, outcome (process_dates filepath name) = Returns out)
             before ->
      outcome (main filepath) = Raises ValueError.
Proof.
  intros Hr Hc Hrows.
  assert (process_dates filepath sheet_name = raise ValueError) as Hraise.
  { unfold process_dates. rewrite Hr, Hc. cbn [negb].
    rewrite mapM_astype, Hrows. reflexivity. }
  split; [done |]. intros before after Hsheets Hbefore.
  apply (main_raises _ _ _ _ _ Hsheets Hbefore). by rewrite Hraise.
Qed.

(** X24.  A row whose value under [Date] is still missing after line 133
    stops the sheet: [parse_dates] raises [AttributeError] on it at line 27,
    outside its [try]; the rows before it were parsed, and no row after
    it. *)
Theorem missing_date_stops_sheet (filepath sheet_name : string) (df : frame)
    (rows_before rows_after : list (gmap string cell)) (row : gmap string cell) :
  read_excel filepath sheet_name = Returns df ->
  has_column "Date" df = true ->
  rows df = (rows_before ++ row :: rows_after)%list ->
  Forall (fun r => is_Some (date_text df r)) rows_before ->
  date_text df row = None ->
  outcome (process_dates filepath sheet_name) = Raises AttributeError
  /\ exists texts,
      date_text df <$> rows_before = Some <$> texts
      /\ calls (process_dates filepath sheet_name)
         = mjoin ((fun text => calls (parse_dates text sheet_name)) <$> texts).
Proof.
  intros Hr Hc Hrows Hbefore Hrow.
  assert (~ Forall is_Some (date_text df <$> rows df)) as Hgap.
  { rewrite Hrows, fmap_app, fmap_cons, Hrow. intros Hall.
    apply Forall_app in Hall as [_ Hall].
    apply Forall_cons in Hall as [[? ?] _]. done. }
  split; [by apply (outcome_process_dates_gap _ _ df) |].
  exists (leading_strings (date_text df <$> rows_before)).
  assert (leading_strings (date_text df <$> rows df)
          = leading_strings (date_text df <$> rows_before)
          /\ date_text df <$> rows_before
             = Some <$> leading_strings (date_text df <$> rows_before))
    as [Hlead Htexts].
  { rewrite Hrows. clear Hrows Hgap.
    induction Hbefore as [| r l [t Ht] _ [IH1 IH2]].
    - cbn. by rewrite Hrow.
    - cbn [app fmap list_fmap]. rewrite Ht. cbn [leading_strings fmap list_fmap].
      split; [by f_equal | by f_equal]. }
  split; [done |].
  unfold process_dates. rewrite Hr, Hc. cbn [negb]. run.
  rewrite mapM_astype, calls_mapM_texts, outcome_mapM_gap by done.
  by rewrite app_nil_r, Hlead.
Qed.

(** X25.  On a sheet with a [Date] column and at least one row, on which
    [parse_dates] returns dates for every row, and for a pandas that makes a
    datetime column of dates only, [process_dates] returns a frame that
    keeps every row, in order. *)
Theorem dated_sheet_kept_whole (filepath sheet_name : string) (df : frame) :
  read_excel filepath sheet_name = Returns df ->
  has_column "Date" df = true ->
  rows df <> [] ->
  Forall (fun row =>
            exists text sd ed,
              date_text df row = Some text
              /\ parsed_range text sheet_name = (Some sd, Some ed))
         (rows df) ->
  (forall values,
      values <> [] -> Forall is_Some values -> infers_datetime values = true) ->
  exists out,
    outcome (process_dates filepath sheet_name) = Returns out
    /\ Forall2 (fun row out_row => expected_row sheet_name df row = Some out_row)
               (rows df) (rows out).
Proof.
  intros Hr Hc Hrows Hdated Hdtype.
  assert (Forall is_Some (date_text df <$> rows df)) as Hall.
  { apply Forall_date_text. eapply Forall_impl; [exact Hdated |].
    intros row (text & _ & _ & -> & _). by eexists. }
  assert (forall l,
             Forall (fun row =>
                       exists text sd ed,
                         date_text df row = Some text
                         /\ parsed_range text sheet_name = (Some sd, Some ed)) l ->
             let parsed :=
               (fun text => parsed_range text sheet_name)
                 <$> leading_strings (date_text df <$> l) in
             List.length parsed = List.length l
             /\ Forall is_Some parsed.*1 /\ Forall is_Some parsed.*2
             /\ Forall2 (fun row out_row =>
                           expected_row sheet_name df row = Some out_row)
                        l (omap (expected_row sheet_name df) l)) as Hparsed.
  { cbv zeta. induction 1 as [| row l (text & sd & ed & Ht & Hp) _ IH]; [done |].
    destruct IH as (IH1 & IH2 & IH3 & IH4).
    assert (exists out_row, expected_row sheet_name df row = Some out_row)
      as [out_row Hout] by (unfold expected_row; rewrite Ht, Hp; eauto).
    cbn [fmap list_fmap omap list_omap]. rewrite Ht, Hout.
    cbn [leading_strings fmap list_fmap List.length]. rewrite Hp.
    cbn [fst snd].
    repeat split; [by f_equal | by constructor | by constructor |].
    by constructor. }
  destruct (Hparsed _ Hdated) as (Hlen & H1 & H2 & Hkept). cbv zeta in *.
  exists (Frame (add_column "End Date" (add_column "Start Date" (columns df)))
                (omap (expected_row sheet_name df) (rows df))).
  split; [| exact Hkept].
  rewrite (outcome_process_dates _ _ _ Hr Hc Hrows Hall). cbv zeta.
  rewrite !Hdtype; [done | | done | | done].
  - intros Hnil. apply (f_equal List.length) in Hnil.
    rewrite length_fmap, Hlen in Hnil. by destruct (rows df).
  - intros Hnil. apply (f_equal List.length) in Hnil.
    rewrite length_fmap, Hlen in Hnil. by destruct (rows df).
Qed.

(** X26.  On a sheet with a [Date] column, at least one row and date texts
    that are all strings, the dtype that pandas gives the two date columns
    decides: [process_dates] returns the expected frame when both are
    datetime columns, and raises [AttributeError] on line 144 or 145 when
    one is not, whatever the number of rows that hold a date. *)
Theorem date_columns_decide (filepath sheet_name : string) (df : frame) :
  read_excel filepath sheet_name = Returns df ->
  has_column "Date" df = true ->
  rows df <> [] ->
  Forall is_Some (date_text df <$> rows df) ->
  let parsed :=
    (fun text => parsed_range text sheet_name)
      <$> leading_strings (date_text df <$> rows df) in
  (infers_datetime parsed.*1 = true ->
   infers_datetime parsed.*2 = true ->
   outcome (process_dates filepath sheet_name)
   = Returns (Frame (add_column "End Date"
                       (add_column "Start Date" (columns df)))
                    (omap (expected_row sheet_name df) (rows df))))
  /\ (infers_datetime parsed.*1 = false \/ infers_datetime parsed.*2 = false ->
      outcome (process_dates filepath sheet_name) = Raises AttributeError).
Proof.
  intros Hr Hc Hrows Hall. cbv zeta.
  rewrite (outcome_process_dates _ _ _ Hr Hc Hrows Hall). cbv zeta. split.
  - by intros -> ->.
  - intros [-> | ->]; [done | by rewrite andb_false_r].
Qed.

End Batch.

(** ** The sheets of the earned media workbook *)

Section EarnedMediaSheets.

Context {libs : Libraries}.

Lemma concat_frames_snoc (frames : list frame) (df : frame) :
  concat_frames [concat_frames frames; df] = concat_frames (frames ++ [df]).
Proof.
  unfold concat_frames. cbn [foldl columns rows fmap list_fmap mjoin list_join].
  f_equal.
  - rewrite foldl_app. cbn [foldl]. f_equal.
    apply (FrameFacts.add_columns_fresh []). cbn [app].
    apply FrameFacts.NoDup_all_columns, NoDup_nil_2.
  - rewrite fmap_app, join_app. cbn. by rewrite !app_nil_r.
Qed.

Lemma read_sheets_from (filepath : string) (sheet_names : list string)
    (frames : list frame) :
  foldl (fun df_total sheet =>
           match read_excel filepath sheet with
           | Returns df => concat_frames [df_total; df]
           | Raises _ => df_total
           end)
        (concat_frames frames) sheet_names
  = concat_frames
      (frames
       ++ omap (fun sheet =>
                  match read_excel filepath sheet with
                  | Returns df => Some df
                  | Raises _ => None
                  end)
               sheet_names).
Proof.
  revert frames. induction sheet_names as [| sheet l IH]; intros frames.
  - cbn. by rewrite app_nil_r.
  - cbn [foldl omap list_omap].
    destruct (read_excel filepath sheet) as [df | e].
    + rewrite concat_frames_snoc, IH, <- app_assoc. done.
    + apply IH.
Qed.

(** X16.  [read_data_from_earned_media_sheets] skips every sheet that the
    reader fails on and returns the concatenation of the sheets it could
    read, in the order of the sheet names; with no readable sheet, and on an
    empty list of names, that is the empty frame. *)
Theorem readable_sheets_concatenated (filepath : string)
    (sheet_names : list string) :
  let readable :=
    omap (fun sheet =>
            match read_excel filepath sheet with
            | Returns df => Some df
            | Raises _ => None
            end)
         sheet_names in
  EarnedMedia.read_data_from_earned_media_sheets filepath sheet_names
  = concat_frames readable
  /\ rows (EarnedMedia.read_data_from_earned_media_sheets filepath sheet_names)
     = mjoin (rows <$> readable)
  /\ (readable = [] ->
      EarnedMedia.read_data_from_earned_media_sheets filepath sheet_names
      = empty_frame).
Proof.
  cbv zeta. unfold EarnedMedia.read_data_from_earned_media_sheets.
  pose proof (read_sheets_from filepath sheet_names []) as H.
  cbn [app] in H. change (concat_frames []) with empty_frame in H.
  rewrite H. split; [done |]. split; [done |]. by intros ->.
Qed.

End EarnedMediaSheets.

(** ** Categories and products *)

Module EventsFacts.

Import Events.

Local Open Scope string_scope.

Lemma category_cases (business_unit : string) :
  (business_unit ∈ ["Consumer"; "Retail"; "Retail (Consumer)"; "Consumer & Retail"]
   /\ map_business_unit_to_category business_unit = "Fibre to the Home")
  \/ (business_unit = "Retail (SME)"
      /\ map_business_unit_to_category business_unit = "Fibre to the Office")
  \/ ((business_unit
       ∉ ["Consumer"; "Retail"; "Retail (Consumer)"; "Consumer & Retail"])
      /\ business_unit <> "Retail (SME)"
      /\ map_business_unit_to_category business_unit
         = "Enterprise, Wholesale, or Public Sector").
Proof.
  unfold map_business_unit_to_category. case_bool_decide as Hin; [by left |].
  destruct (String.eqb_spec business_unit "Retail (SME)") as [-> | Hne].
  - right. by left.
  - right. by right.
Qed.

End EventsFacts.

(** X17.  [map_business_unit_to_category] gives the home category exactly on
    the four consumer and retail names, spelled as in the list, the office
    category exactly on "Retail (SME)", and the enterprise category on every
    other text. *)
Theorem category_of_business_unit (business_unit : string) :
  (Events.map_business_unit_to_category business_unit = "Fibre to the Home"%string
   <-> business_unit
       ∈ ["Consumer"; "Retail"; "Retail (Consumer)"; "Consumer & Retail"]%string)
  /\ (Events.map_business_unit_to_category business_unit
      = "Fibre to the Office"%string
      <-> business_unit = "Retail (SME)"%string)
  /\ Events.map_business_unit_to_category business_unit
     ∈ ["Fibre to the Home"; "Fibre to the Office";
        "Enterprise, Wholesale, or Public Sector"]%string.
Proof.
  assert ("Retail (SME)"%string
          ∉ ["Consumer"; "Retail"; "Retail (Consumer)"; "Consumer & Retail"]%string)
    as Hsme.
  { intros Hin. apply list_elem_of_In in Hin. cbn in Hin.
    intuition discriminate. }
  destruct (EventsFacts.category_cases business_unit)
    as [[Hin ->] | [[-> ->] | (Hin & Hne & ->)]].
  - split; [done |]. split; [| by left]. split; [done |]. by intros ->.
  - split; [| split; [done | by right; left]]. by split.
  - split; [done |]. split; [done |]. by right; right; left.
Qed.

(** X18.  The product tells the category: two business units that come out
    with the same product have the same category, and the product of a
    category that the first mapping gives is never the product of another
    one. *)
Theorem product_tells_category (a b : string) :
  Events.map_category_to_product (Events.map_business_unit_to_category a)
  = Events.map_category_to_product (Events.map_business_unit_to_category b) ->
  Events.map_business_unit_to_category a = Events.map_business_unit_to_category b.
Proof.
  destruct (EventsFacts.category_cases a) as [[_ ->] | [[_ ->] | (_ & _ & ->)]];
    destruct (EventsFacts.category_cases b) as [[_ ->] | [[_ ->] | (_ & _ & ->)]];
    vm_compute; congruence.
Qed.

(** X19.  When [process_time_data] returns a frame, the file was read and
    has a [Business Unit] column; the frame has the rows of the file in
    order, each with the brand and company "Time", the category of its
    business unit and the product of that category, and with every other
    column as it was; the columns of the file come first. *)
Theorem process_time_data_rows (read_csv : string -> result frame)
    (filepath : string) (out : frame) :
  Events.process_time_data read_csv filepath = inr out ->
  exists df,
    read_csv filepath = Returns df
    /\ has_column "Business Unit" df = true
    /\ Forall2
         (fun row out_row =>
            let category := Events.category_of_cell (row !! "Business Unit"%string) in
            out_row !! "brand"%string = Some (CText "Time")
            /\ out_row !! "company"%string = Some (CText "Time")
            /\ out_row !! "category"%string = Some (CText category)
            /\ out_row !! "product"%string
               = Some (CText (Events.map_category_to_product category))
            /\ forall k,
                k ∉ ["brand"; "company"; "category"; "product"]%string ->
                out_row !! k = row !! k)
         (rows df) (rows out)
    /\ columns df `prefix_of` columns out
    /\ Forall (fun c => c ∈ columns out)
              ["brand"; "company"; "category"; "product"]%string.
Proof.
  unfold Events.process_time_data.
  destruct (read_csv filepath) as [df | e]; [| by destruct e].
  destruct (has_column "Business Unit" df) eqn:Hc; [| done].
  cbn [negb]. intros [= <-]. exists df. split; [done |]. split; [done |].
  destruct df as [cols l].
  cbn [Events.assign_applied Events.assign_constant rows columns]. split.
  - clear Hc. induction l as [| row l IH]; [constructor |].
    cbn [fmap list_fmap]. constructor; [| exact IH]. cbv zeta.
    rewrite !lookup_insert_eq.
    rewrite !(lookup_insert_ne _ "product"%string) by done.
    rewrite !lookup_insert_eq.
    rewrite !(lookup_insert_ne _ "category"%string) by done.
    rewrite !lookup_insert_eq.
    rewrite !(lookup_insert_ne _ "company"%string) by done.
    rewrite !lookup_insert_eq.
    rewrite !(lookup_insert_ne _ "brand"%string) by done.
    repeat split; try done.
    intros k Hk. rewrite !lookup_insert_ne; [done | ..];
      intros <-; apply Hk;
      repeat first [apply list_elem_of_here | apply list_elem_of_further].
  - split.
    + repeat (etrans; [| apply FrameFacts.prefix_add_column]). done.
    + repeat constructor; rewrite !FrameFacts.elem_of_add_column; tauto.
Qed.

(** ** The further properties on concrete inputs *)

Section MoreInstances.

Local Open Scope string_scope.

Local Existing Instance Reference.workbook_libraries.

Local Existing Instance Reference.pandas.

Lemma parts_are_clean_witness :
  "15 March" ∈ parts_of "  12 -  15 March "
  /\ "15 March" <> ""
  /\ Shape.starts_nonspace "15 March" = true
  /\ Shape.ends_nonspace "15 March" = true
  /\ Str.has_hyphen "15 March" = false.
Proof.
  assert ("15 March" ∈ parts_of "  12 -  15 March ") as Hin.
  { vm_compute. apply list_elem_of_further, list_elem_of_here. }
  split; [exact Hin |]. exact (parts_are_clean _ _ Hin).
Defined.

Lemma month_token_is_a_name_witness :
  Shape.lowercase "MARCH" ∈ Shape.month_names
  /\ exists before after, "15 MARCH 2023" = before ++ "MARCH" ++ after.
Proof.
  apply (month_token_is_a_name "15 MARCH 2023" "MARCH"). vm_compute.
  reflexivity.
Defined.

Lemma single_date_start_is_end_witness :
  calls (parse_dates "5 May" "2024") = ["5 May 2024"]
  /\ outcome (parse_dates "5 May" "2024")
     = Returns (Some (Datetime.of_date 2024 5 5), Some (Datetime.of_date 2024 5 5)).
Proof.
  exact (single_date_start_is_end "5 May" "2024" ltac:(vm_compute; reflexivity)).
Defined.

Lemma single_date_with_year_witness :
  calls (parse_dates " 5 May   2024" "2022") = ["5 May 2024"]
  /\ parse_dates " 5 May   2024" "2022" = parse_dates " 5 May   2024" "2023".
Proof.
  exact (single_date_with_year " 5 May   2024" "2022" "2023"
           ltac:(vm_compute; reflexivity) ltac:(vm_compute; reflexivity)).
Defined.

Lemma dangling_hyphen_whole_text_witness :
  calls (parse_dates "5 May -" "2022") = ["5 May -"]
  /\ parse_dates "5 May -" "2022" = parse_dates "5 May -" "2023".
Proof.
  exact (dangling_hyphen_whole_text "5 May -" "2022" "2023"
           ltac:(vm_compute; reflexivity) ltac:(vm_compute; lia)).
Defined.

Lemma range_dates_from_parser_witness :
  dateparser_parse "30 Dec 2022" = Returns (Some (Datetime.of_date 2022 12 30))
  /\ exists parsed_end,
      dateparser_parse "2 Jan 2022" = Returns (Some parsed_end)
      /\ Datetime.of_date 2023 1 2
         = (if Datetime.ltb parsed_end (Datetime.of_date 2022 12 30)
            then Datetime.with_year parsed_end (Datetime.year parsed_end + 1)
            else parsed_end)
      /\ timestamp_in_bounds (Datetime.of_date 2022 12 30) = true
      /\ timestamp_in_bounds (Datetime.of_date 2023 1 2) = true.
Proof.
  exact (range_dates_from_parser "30 Dec - 2 Jan" "2022" "30 Dec" "2 Jan"
           (Datetime.of_date 2022 12 30) (Datetime.of_date 2023 1 2)
           ltac:(vm_compute; reflexivity) ltac:(vm_compute; reflexivity)).
Defined.

Lemma rollover_fails_exactly_witness :
  outcome (replace_year (Datetime.of_date 2024 2 29) 2025) = Raises ValueError
  /\ outcome (replace_year (Datetime.of_date 2022 1 2) 2023)
     = Returns (Datetime.of_date 2023 1 2).
Proof.
  split.
  - exact (rollover_fails_exactly (Datetime.of_date 2024 2 29)
             ltac:(vm_compute; reflexivity)).
  - exact (rollover_fails_exactly (Datetime.of_date 2022 1 2)
             ltac:(vm_compute; reflexivity)).
Defined.

(** The workbook has no sheet of 2023: the reader raises on it. *)
Lemma unreadable_sheet_skipped_witness :
  @process_dates Samples.two_sheets Reference.pandas "events.xlsx" "2023"
  = ret empty_frame
  /\ @main Samples.two_sheets Reference.pandas "events.xlsx"
     = (dfs ← mapM (@process_dates Samples.two_sheets Reference.pandas
                      "events.xlsx") ["2022"; "2024"];
        ret (concat_frames dfs)).
Proof.
  destruct (@unreadable_sheet_skipped Samples.two_sheets Reference.pandas
              "events.xlsx" "2023" ValueError)
    as [Hempty Hbatch]; [vm_compute; reflexivity |].
  split; [exact Hempty |]. exact (proj1 (Hbatch ["2022"] ["2024"] eq_refl)).
Defined.

(** A workbook whose sheets all give a frame makes a batch of three rows; a
    workbook whose sheet of 2022 has no row makes none. *)
Lemma main_batch_or_first_exception_witness :
  (exists batch,
      outcome (@main Samples.all_dated Reference.pandas "events.xlsx")
      = Returns batch
      /\ List.length (rows batch) = 3%nat)
  /\ outcome (@main Samples.header_only Reference.pandas "events.xlsx")
     = Raises ValueError.
Proof.
  split.
  - destruct (outcome (@process_dates Samples.all_dated Reference.pandas
                         "events.xlsx" "2022")) as [d22 | e] eqn:H22;
      [| vm_compute in H22; discriminate].
    destruct (outcome (@process_dates Samples.all_dated Reference.pandas
                         "events.xlsx" "2023")) as [d23 | e] eqn:H23;
      [| vm_compute in H23; discriminate].
    destruct (outcome (@process_dates Samples.all_dated Reference.pandas
                         "events.xlsx" "2024")) as [d24 | e] eqn:H24;
      [| vm_compute in H24; discriminate].
    destruct (proj1 (@main_batch_or_first_exception Samples.all_dated
                       Reference.pandas "events.xlsx") d22 d23 d24 H22 H23 H24)
      as (batch & Hmain & Hrows & _).
    exists batch. split; [exact Hmain |]. rewrite Hrows.
    vm_compute in H22, H23, H24.
    injection H22 as <-. injection H23 as <-. injection H24 as <-.
    reflexivity.
  - apply (proj2 (proj2 (@main_batch_or_first_exception Samples.header_only
                           Reference.pandas "events.xlsx"))
             [] ["2023"; "2024"] "2022" ValueError eq_refl).
    + constructor.
    + vm_compute. reflexivity.
Defined.

(** The sheet of 2022 has three rows, one of them without a date; two come
    out. *)
Lemma other_columns_untouched_witness :
  exists out,
    outcome (process_dates "events.xlsx" "2022") = Returns out
    /\ List.length (rows out) = 2%nat
    /\ Forall (fun out_row =>
                 exists row text,
                   row ∈ rows Reference.calendar_2022
                   /\ date_text Reference.calendar_2022 row = Some text
                   /\ out_row !! "Date" = Some (CText text)
                   /\ forall k,
                       k ∉ ["Date"; "Start Date"; "End Date"] ->
                       out_row !! k = row !! k)
              (rows out).
Proof.
  destruct (outcome (process_dates "events.xlsx" "2022")) as [out | e] eqn:Hout;
    [| vm_compute in Hout; discriminate].
  exists out. split; [reflexivity |].
  destruct (other_columns_untouched "events.xlsx" "2022"
              Reference.calendar_2022 out)
    as (_ & Hrows & _); [vm_compute; reflexivity .. | exact Hout |].
  split; [| exact Hrows].
  vm_compute in Hout. injection Hout as <-. reflexivity.
Defined.

Lemma batch_uses_sheet_names_witness :
  exists batch,
    outcome (@main Samples.three_sheets Reference.pandas "events.xlsx")
    = Returns batch
    /\ List.length (rows batch) = 4%nat.
Proof.
  destruct (outcome (@main Samples.three_sheets Reference.pandas "events.xlsx"))
    as [batch | e] eqn:Hmain; [| vm_compute in Hmain; discriminate].
  exists batch. split; [reflexivity |].
  rewrite (@batch_uses_sheet_names Samples.three_sheets Reference.pandas
             "events.xlsx" Reference.calendar_2022
             (Frame ["Date"] [ {[ "Date" := CText "1 - 3 June" ]} ])
             Reference.calendar_2024 batch);
    [| vm_compute; reflexivity .. | exact Hmain].
  vm_compute. reflexivity.
Defined.

(** The sheet of 2022: the row "to be confirmed" is left out, and the two
    others come out with their dates written out. *)
Lemma returned_rows_parsed_and_formatted_witness :
  exists out,
    outcome (process_dates "events.xlsx" "2022") = Returns out
    /\ (fun row => (row !! "Start Date", row !! "End Date")) <$> rows out
       = [ (Some (CText "2022-12-30"), Some (CText "2023-01-02"));
           (Some (CText "2022-03-12"), Some (CText "2022-03-15")) ].
Proof.
  destruct (outcome (process_dates "events.xlsx" "2022")) as [out | e] eqn:Hout;
    [| vm_compute in Hout; discriminate].
  exists out. split; [reflexivity |].
  destruct (returned_rows_parsed_and_formatted "events.xlsx" "2022"
              Reference.calendar_2022 out)
    as (-> & _ & _); [vm_compute; reflexivity .. | exact Hout |].
  vm_compute. reflexivity.
Defined.

(** The sheet of 2022 has its header and no row. *)
Lemma sheet_without_rows_raises_witness :
  @process_dates Samples.header_only Reference.pandas "events.xlsx" "2022"
  = raise ValueError
  /\ outcome (@main Samples.header_only Reference.pandas "events.xlsx")
     = Raises ValueError.
Proof.
  destruct (@sheet_without_rows_raises Samples.header_only Reference.pandas
              "events.xlsx" "2022" (Frame ["Event"; "Date"] []))
    as [Hsheet Hmain]; [vm_compute; reflexivity .. |].
  split; [exact Hsheet |].
  apply (Hmain [] ["2023"; "2024"] eq_refl). constructor.
Defined.

(** The second row of the sheet has no date: the first row was parsed, the
    third was not. *)
Lemma missing_date_stops_sheet_witness :
  outcome (@process_dates Samples.with_gap Reference.pandas "events.xlsx" "2024")
  = Raises AttributeError
  /\ calls (@process_dates Samples.with_gap Reference.pandas "events.xlsx" "2024")
     = ["5 May 2024"].
Proof.
  destruct (@missing_date_stops_sheet Samples.with_gap Reference.pandas
              "events.xlsx" "2024" Samples.gap_sheet
              [ {[ "Event" := CText "Expo"; "Date" := CText "5 May" ]} ]
              [ {[ "Event" := CText "Summit"; "Date" := CText "6 May" ]} ]
              {[ "Event" := CText "Fair" ]})
    as (Hout & texts & Htexts & Hcalls).
  - vm_compute. reflexivity.
  - vm_compute. reflexivity.
  - reflexivity.
  - repeat constructor. vm_compute. eauto.
  - vm_compute. reflexivity.
  - split; [exact Hout |]. rewrite Hcalls.
    vm_compute in Htexts. destruct texts as [| t [| t' texts]]; simplify_eq/=.
    vm_compute. reflexivity.
Defined.

(** Both rows of the sheet of 2022 hold a date, and both come out. *)
Lemma dated_sheet_kept_whole_witness :
  exists out,
    outcome (@process_dates Samples.all_dated Reference.pandas "events.xlsx" "2022")
    = Returns out
    /\ List.length (rows out) = 2%nat.
Proof.
  destruct (@dated_sheet_kept_whole Samples.all_dated Reference.pandas
              "events.xlsx" "2022" Samples.dated_2022)
    as (out & Hout & Hrows).
  - vm_compute. reflexivity.
  - vm_compute. reflexivity.
  - discriminate.
  - repeat constructor.
    + exists "30 Dec - 2 Jan", (Datetime.of_date 2022 12 30),
             (Datetime.of_date 2023 1 2).
      split; vm_compute; reflexivity.
    + exists "12 - 15 March", (Datetime.of_date 2022 3 12),
             (Datetime.of_date 2022 3 15).
      split; vm_compute; reflexivity.
  - intros values Hne Hall. destruct Hall as [| v l [d ->] _]; [done |].
    reflexivity.
  - exists out. split; [exact Hout |].
    apply Forall2_length in Hrows. rewrite <- Hrows. reflexivity.
Defined.

(** The sheet of 2022 has a row without a date among its three rows: with
    the first stand-in for pandas the two other rows come out, with the
    second the sheet raises. *)
Lemma date_columns_decide_witness :
  (exists out,
      outcome (@process_dates Reference.workbook_libraries Reference.pandas
                 "events.xlsx" "2022") = Returns out
      /\ List.length (rows out) = 2%nat)
  /\ outcome (@process_dates Reference.workbook_libraries Reference.pandas_2
                "events.xlsx" "2022")
     = Raises AttributeError.
Proof.
  split.
  - eexists. split.
    + apply (@date_columns_decide Reference.workbook_libraries Reference.pandas
               "events.xlsx" "2022" Reference.calendar_2022);
        first [discriminate | repeat constructor; vm_compute; eauto
              | vm_compute; reflexivity].
    + vm_compute. reflexivity.
  - apply (@date_columns_decide Reference.workbook_libraries Reference.pandas_2
             "events.xlsx" "2022" Reference.calendar_2022);
      first [discriminate | repeat constructor; vm_compute; eauto
            | left; vm_compute; reflexivity
            | vm_compute; reflexivity].
Defined.

Lemma product_tells_category_witness :
  Events.map_business_unit_to_category "Consumer"
  = Events.map_business_unit_to_category "Retail".
Proof.
  apply product_tells_category. vm_compute. reflexivity.
Defined.

Lemma process_time_data_rows_witness :
  exists out,
    Events.process_time_data Samples.read_csv "events.csv" = inr out
    /\ Forall2
         (fun row out_row =>
            out_row !! "product"
            = Some (CText (Events.map_category_to_product
                             (Events.category_of_cell (row !! "Business Unit")))))
         (rows Samples.events_file) (rows out).
Proof.
  destruct (Events.process_time_data Samples.read_csv "events.csv")
    as [e | out] eqn:Hout; [vm_compute in Hout; discriminate |].
  exists out. split; [reflexivity |].
  destruct (process_time_data_rows Samples.read_csv "events.csv" out Hout)
    as (df & Hread & _ & Hrows & _).
  vm_compute in Hread. injection Hread as <-.
  eapply Forall2_impl; [exact Hrows |]. cbv zeta. intros row out_row H.
  apply H.
Defined.

End MoreInstances.

(** ** Hyphens and parser calls *)

Module HyphenFacts.

Import Str Shape.

Local Open Scope string_scope.

Lemma count_hyphens_lstrip (s : string) :
  count_hyphens (lstrip s) = count_hyphens s.
Proof.
  induction s as [| c r IH]; [done |]. cbn [lstrip].
  destruct (Char.isspace c) eqn:Hc; [| done].
  cbn [count_hyphens]. by rewrite (SplitFacts.isspace_not_hyphen _ Hc).
Qed.

Lemma count_hyphens_rstrip (s : string) :
  count_hyphens (rstrip s) = count_hyphens s.
Proof.
  induction s as [| c r IH]; [done |]. cbn [rstrip count_hyphens].
  rewrite <- IH. destruct (rstrip r); [| done].
  destruct (Char.isspace c) eqn:Hc; [| done].
  cbn [count_hyphens]. by rewrite (SplitFacts.isspace_not_hyphen _ Hc).
Qed.

Lemma count_hyphens_collapse (b : bool) (s : string) :
  count_hyphens (collapse_from b s) = count_hyphens s.
Proof.
  revert b. induction s as [| c r IH]; intros b; [done |].
  cbn [collapse_from count_hyphens].
  destruct (Char.isspace c) eqn:Hc.
  - rewrite (SplitFacts.isspace_not_hyphen _ Hc).
    destruct b; [apply IH |]. cbn [count_hyphens].
    change (Ascii.eqb " " "-") with false. cbv iota. apply IH.
  - cbn [count_hyphens]. by rewrite IH.
Qed.

Lemma has_hyphen_count (s : string) :
  has_hyphen s = negb (Nat.eqb (count_hyphens s) 0).
Proof.
  induction s as [| c r IH]; [done |]. cbn [has_hyphen count_hyphens].
  by destruct (Ascii.eqb c "-").
Qed.

End HyphenFacts.

(** X20.  Normalising neither adds nor removes a hyphen, so the range test
    of line 35 gives on the normalised text what it would give on the raw
    text, and a text never has more parts than hyphens plus one. *)
Theorem hyphens_kept (s : string) :
  Shape.count_hyphens (normalise s) = Shape.count_hyphens s
  /\ Str.has_hyphen (normalise s) = Str.has_hyphen s
  /\ (List.length (parts_of s) <= S (Shape.count_hyphens s))%nat.
Proof.
  assert (Shape.count_hyphens (normalise s) = Shape.count_hyphens s) as Hc.
  { unfold normalise, Str.collapse_spaces, Str.strip.
    by rewrite HyphenFacts.count_hyphens_collapse,
         HyphenFacts.count_hyphens_rstrip, HyphenFacts.count_hyphens_lstrip. }
  split; [done |]. split.
  - by rewrite !HyphenFacts.has_hyphen_count, Hc.
  - unfold parts_of, Str.clean_parts. rewrite length_map.
    etrans; [apply List.filter_length_le |].
    unfold Str.split_hyphen.
    rewrite SplitFacts.length_split_from by lia. cbn [Str.drop]. by rewrite Hc.
Qed.

Section ParserCalls.

Context {libs : Libraries} {pandas : Pandas}.

Local Open Scope string_scope.

Lemma calls_parse_dates_bounds (s y : string) :
  (1 <= List.length (calls (parse_dates s y)) <= 2)%nat.
Proof.
  rewrite calls_parse_dates.
  destruct (parse_body_cases (normalise s) y) as [[x ->] | (a & b & Hp)].
  - run. destruct (dateparser_parse x); cbn; lia.
  - rewrite (parse_body_range _ y a b Hp). run.
    destruct (dateparser_parse (append_year (copy_month a b) y)); run;
      [| cbn; lia].
    destruct (dateparser_parse (append_year b y)); run; cbn; lia.
Qed.

(** The steps after line 136 call no parser. *)
Lemma calls_process_dates (filepath sheet_name : string) (df : frame) :
  read_excel filepath sheet_name = Returns df ->
  has_column "Date" df = true ->
  calls (process_dates filepath sheet_name)
  = mjoin ((fun text => calls (parse_dates text sheet_name))
             <$> leading_strings (date_text df <$> rows df)).
Proof.
  intros Hr Hc. unfold process_dates. rewrite Hr, Hc. cbn [negb]. run.
  rewrite mapM_astype, calls_mapM_texts.
  destruct (outcome (mapM _ _)) as [parsed | e]; [| by rewrite app_nil_r].
  destruct parsed as [| v parsed]; cbn [assign_pair]; run;
    [by rewrite app_nil_r |].
  destruct (infers_datetime (v :: parsed).*1); cbn [strftime_column]; run;
    [| by rewrite app_nil_r].
  destruct (infers_datetime (v :: parsed).*2); cbn [strftime_column]; run;
    by rewrite app_nil_r.
Qed.

(** X21.  On a sheet with a [Date] column, the texts that [process_dates]
    hands to the parser are those of [parse_dates] on the date texts of the
    rows, row after row, up to the first row whose date text is no string.
    When every date text is a string, every row is parsed, whether or not
    earlier rows failed, and the parser is called once or twice for each
    row. *)
Theorem every_row_parsed (filepath sheet_name : string) (df : frame) :
  read_excel filepath sheet_name = Returns df ->
  has_column "Date" df = true ->
  calls (process_dates filepath sheet_name)
  = mjoin ((fun text => calls (parse_dates text sheet_name))
             <$> leading_strings (date_text df <$> rows df))
  /\ (Forall is_Some (date_text df <$> rows df) ->
      date_text df <$> rows df
      = Some <$> leading_strings (date_text df <$> rows df)
      /\ (List.length (rows df)
          <= List.length (calls (process_dates filepath sheet_name))
          <= 2 * List.length (rows df))%nat).
Proof.
  intros Hr Hc. pose proof (calls_process_dates _ _ _ Hr Hc) as Hcalls.
  split; [done |]. rewrite Hcalls. clear Hcalls Hr Hc.
  induction (rows df) as [| row l IH]; intros Hall; [cbn; split; [done | lia] |].
  rewrite fmap_cons in Hall. apply Forall_cons in Hall as [[t Ht] Hall].
  destruct (IH Hall) as [IH1 IH2].
  rewrite !fmap_cons, Ht. cbn [leading_strings]. rewrite !fmap_cons.
  split; [by f_equal |].
  change (mjoin (?x :: ?r)) with (x ++ mjoin r)%list.
  rewrite length_app. cbn [List.length].
  pose proof (calls_parse_dates_bounds t sheet_name).
  lia.
Qed.

End ParserCalls.

(** The sheet of 2022 has three rows; the first and the third are ranges of
    two parts and cost two calls each, the second costs one. *)
Lemma every_row_parsed_witness :
  calls (@process_dates Reference.workbook_libraries Reference.pandas
           "events.xlsx" "2022")
  = ["30 Dec 2022"; "2 Jan 2022"; "to be confirmed 2022";
     "12 March 2022"; "15 March 2022"]%string.
Proof.
  destruct (@every_row_parsed Reference.workbook_libraries Reference.pandas
              "events.xlsx" "2022" Reference.calendar_2022)
    as [Hcalls _]; [vm_compute; reflexivity .. |].
  rewrite Hcalls. vm_compute. reflexivity.
Defined.
